(** * Strategy models of trading-server: a shallow embedding of [model.py]

    The development follows the source file top-down:

    - the fragment of Python the models rely on (exceptions, [sys.exit],
      list indexing with negative indices, [str.isdigit], [int], [str],
      [re.findall] on the pattern [[a-zA-Z]+], list objects living in a
      store);
    - the class [EMACrossTestingOnly] ([run], [get_required_timeframes]);
    - the class [EQTrendFollowing] ([run], [get_required_timeframes]);
    - the properties of the two models.

    Strings are byte strings; timeframe codes are ASCII.  Prices are
    binary64 floating-point numbers, with the arithmetic of the machine.
    An indicator cell holds Python's [None], a not-a-number, or the exact
    rational value of a number: the cells are only ever compared. *)

From Stdlib Require Import ZArith NArith QArith Lia List String Ascii.
From Stdlib Require Import Decimal DecimalString DecimalN.
From Stdlib Require Import PrimFloat.
From stdpp Require Import base option list strings gmap.

Open Scope string_scope.
Open Scope list_scope.
Open Scope Z_scope.

(** ** Python outcomes *)

(** The exceptions the two models can raise. *)
Inductive exn : Type :=
  | IndexError
  | KeyError
  | TypeError
  | ValueError.

(** A call either returns, raises an exception that travels up to the
    caller, or leaves through [sys.exit(code)], which ends the hosting
    process. *)
Inductive outcome (A : Type) : Type :=
  | Ok (a : A)
  | Raise (e : exn)
  | SystemExit (code : Z).

Arguments Ok {A} a.
Arguments Raise {A} e.
Arguments SystemExit {A} code.

Definition bind {A B : Type} (m : outcome A) (k : A -> outcome B) : outcome B :=
  match m with
  | Ok a => k a
  | Raise e => Raise e
  | SystemExit c => SystemExit c
  end.

Notation "x <- m ;; k" := (bind m (fun x => k))
  (at level 100, m at next level, right associativity).

(** [try: body except IndexError: handler]. *)
Definition try_except_IndexError {A : Type} (body handler : outcome A) : outcome A :=
  match body with
  | Raise IndexError => handler
  | other => other
  end.

(** ** Python lists *)

(** [l[i]] for a possibly negative [i]: indices [-len(l) .. -1] count from
    the end, anything outside [-len(l) .. len(l)-1] raises [IndexError]. *)
Definition py_index {A : Type} (l : list A) (i : Z) : outcome A :=
  let n := Z.of_nat (length l) in
  if (0 <=? i) && (i <? n) then
    match l !! Z.to_nat i with Some x => Ok x | None => Raise IndexError end
  else if (- n <=? i) && (i <? 0) then
    match l !! Z.to_nat (n + i) with Some x => Ok x | None => Raise IndexError end
  else Raise IndexError.

(** [x not in l] on a list of strings. *)
Definition not_in (x : string) (l : list string) : bool :=
  negb (bool_decide (x ∈ l)).

(** ** Python strings *)

(** [str.isdigit] and the class [[a-zA-Z]] on ASCII characters, which is
    what timeframe codes are made of. *)
Definition isdigit (c : ascii) : bool :=
  let n := nat_of_ascii c in (48 <=? n)%nat && (n <=? 57)%nat.

Definition isalpha (c : ascii) : bool :=
  let n := nat_of_ascii c in
  ((65 <=? n)%nat && (n <=? 90)%nat) || ((97 <=? n)%nat && (n <=? 122)%nat).

(** [''.join(filter(pred, s))]. *)
Fixpoint join_filter (pred : ascii -> bool) (s : string) : string :=
  match s with
  | EmptyString => EmptyString
  | String c s' =>
      if pred c then String c (join_filter pred s') else join_filter pred s'
  end.

(** [int(s)] on a string of decimal digits; the empty string and any other
    character raise [ValueError]. *)
Definition py_int (s : string) : outcome N :=
  match s with
  | EmptyString => Raise ValueError
  | _ =>
      match NilEmpty.uint_of_string s with
      | Some d => Ok (N.of_uint d)
      | None => Raise ValueError
      end
  end.

(** [str(n)] for a natural number. *)
Definition py_str (n : N) : string :=
  NilEmpty.string_of_uint (N.to_uint n).

(** [re.findall("[a-zA-Z]+", s)]: the maximal runs of letters, left to
    right.  [run] is the run being read, in reverse. *)
Fixpoint findall_alpha_from (run : list ascii) (s : string) : list string :=
  let flush := match run with
               | [] => []
               | _ => [string_of_list_ascii (rev run)]
               end in
  match s with
  | EmptyString => flush
  | String c s' =>
      if isalpha c then findall_alpha_from (c :: run) s'
      else flush ++ findall_alpha_from [] s'
  end.

Definition findall_alpha (s : string) : list string :=
  findall_alpha_from [] s.

(** [for x in l: s = body(s, x)], stopping at the first exception. *)
Fixpoint for_each {A S : Type} (body : S -> A -> outcome S) (l : list A) (s : S)
  : outcome S :=
  match l with
  | [] => Ok s
  | x :: l' => s' <- body s x ;; for_each body l' s'
  end.

(** ** List objects in the store *)

(** A Python list of strings is an object: callers and callee see the same
    cell.  [h !!! r] is the content of the list at reference [r]. *)
Abbreviation store := (gmap nat (list string)).

(** [r.append(x)]. *)
Definition list_append (r : nat) (x : string) (h : store) : store :=
  <[r := (h !!! r) ++ [x]]> h.

(** A new list object holding [l]. *)
Definition list_new (l : list string) (h : store) : nat * store :=
  let r := fresh (dom h) in (r, <[r := l]> h).

(** ** Bar series *)

(** An indicator cell of a bar series: Python's [None], a not-a-number
    (what the data frame holds before the indicator has warmed up), or a
    number. *)
Inductive cell : Type :=
  | PyNone
  | NaN
  | Num (q : Q).

Definition is_not_None (c : cell) : bool :=
  match c with PyNone => false | _ => true end.

Definition Qltb (x y : Q) : bool := negb (Qle_bool y x).

(** [a < b]: ordering against [None] raises [TypeError], every comparison
    with a not-a-number is false. *)
Definition py_lt (a b : cell) : outcome bool :=
  match a, b with
  | PyNone, _ | _, PyNone => Raise TypeError
  | NaN, _ | _, NaN => Ok false
  | Num x, Num y => Ok (Qltb x y)
  end.

Definition py_gt (a b : cell) : outcome bool := py_lt b a.

(** [a and b], [b] evaluated only when [a] is true. *)
Definition py_and (a : outcome bool) (b : outcome bool) : outcome bool :=
  x <- a ;; if x then b else Ok false.

(** One row of a per-timeframe data frame; [index] is the bar's timestamp
    in epoch seconds, the price columns are binary64 floats. *)
Record Bar : Type := mkBar {
  index : Z;
  open : float;
  high : float;
  low : float;
  close : float;
  volume : float;
  EMA10 : cell;
  EMA20 : cell
}.

Abbreviation DataFrame := (list Bar).

(** [op_data[timeframe]]. *)
Definition getitem (op_data : gmap string DataFrame) (timeframe : string)
  : outcome DataFrame :=
  match op_data !! timeframe with
  | Some df => Ok df
  | None => Raise KeyError
  end.

(** Modelled from the spec: the class [SignalEvent] of [event_types], whose
    source is not part of this file.  The fields are the fourteen
    constructor arguments in the order section 3 of the specification lists
    them: symbol, entry timestamp (epoch seconds), direction, timeframe,
    model name, exchange, entry price, order type, targets as (price,
    percent-to-close) pairs, optional stop price, optional trailing
    metadata, a boolean flag, an optional identifier, and the snapshot of
    the triggering bar series. *)
Record SignalEvent : Type := mkSignalEvent {
  symbol : string;
  entry_ts : Z;
  direction : string;
  timeframe : string;
  strategy : string;
  venue : string;
  entry_price : float;
  entry_type : string;
  targets : list (float * Z);
  stop_price : option float;
  trail : option float;
  flag : bool;
  note : option string;
  op_data_snapshot : DataFrame
}.

(** [self.logger.info(...)]: the log is a list of lines. *)
Definition logger_info (line : string) (log : list string) : list string :=
  log ++ [line].

(** ** class EMACrossTestingOnly *)

Module EMACrossTestingOnly.

Definition name : string := "EMA Cross - Testing only".

Definition operating_timeframes : list string := ["1Min"].

(** [{'price': [], 'time': []}]. *)
Record candidates : Type := mkCandidates {
  price : list float;
  time : list Z
}.

Definition no_candidates : candidates := mkCandidates [] [].

(** [d['price'].append(p); d['time'].append(t)]. *)
Definition record_cross (d : candidates) (p : float) (t : Z) : candidates :=
  mkCandidates (price d ++ [p]) (time d ++ [t]).

(** A row of [features]: (index, open, EMA10, EMA20). *)
Abbreviation feature := (Z * float * cell * cell)%type.

(** [list(zip(df.index, df['open'], df.EMA10, df.EMA20))]. *)
Definition zip_features (df : DataFrame) : list feature :=
  map (fun b => (index b, open b, EMA10 b, EMA20 b)) df.

(** [f[0]], the timestamp of a row. *)
Definition feature_time (f : feature) : Z :=
  let '(ts, _, _, _) := f in ts.

(** The body of the loop "Check for EMA crosses", for one [i]; the state
    is the pair (longs, shorts). *)
Definition check_cross (features : list feature) (ls : candidates * candidates)
  (i : Z) : outcome (candidates * candidates) :=
  let '(longs, shorts) := ls in
  f0 <- py_index features i ;;
  f1 <- py_index features (i - 1) ;;
  f2 <- py_index features (i - 2) ;;
  let '(ts, opn, fast, slow) := f0 in
  let '(_, _, fast_minus_1, slow_minus_1) := f1 in
  let '(_, _, fast_minus_2, slow_minus_2) := f2 in
  if is_not_None fast && is_not_None slow then
    short <- py_gt slow fast ;;
    if short then
      (* Short cross. *)
      c <- py_and (py_lt slow_minus_1 fast_minus_1)
                  (py_lt slow_minus_2 fast_minus_2) ;;
      if c then Ok (longs, record_cross shorts opn ts) else Ok (longs, shorts)
    else
      long <- py_lt slow fast ;;
      if long then
        (* Long cross. *)
        c <- py_and (py_gt slow_minus_1 fast_minus_1)
                    (py_gt slow_minus_2 fast_minus_2) ;;
        if c then Ok (record_cross longs opn ts, shorts) else Ok (longs, shorts)
      else Ok (longs, shorts)
  else Ok (longs, shorts).

(** [for i in range(len(df.index))]. *)
Definition scan_crosses (features : list feature) (n : nat)
  : outcome (candidates * candidates) :=
  for_each (check_cross features) (map Z.of_nat (seq 0 n))
           (no_candidates, no_candidates).

(** The signal returned for an entry at [entry_price], [entry_ts]. *)
Definition make_signal (op_data : gmap string DataFrame)
  (timeframe symbol exchange direction : string)
  (entry_price : float) (entry_ts : Z) (final_tp_price : float)
  : outcome (option SignalEvent) :=
  let targets := [(final_tp_price, 100)] in
  df <- getitem op_data timeframe ;;
  Ok (Some (mkSignalEvent symbol entry_ts direction timeframe name exchange
              entry_price "Market" targets None None false None df)).

(** The block under [try:].  The literal [0.005] is the binary64 number
    [0x1.47ae147ae147bp-8]; sums and products round as the machine does. *)
Definition select_trigger (op_data : gmap string DataFrame)
  (timeframe symbol exchange : string) (features : list feature)
  (longs shorts : candidates) : outcome (option SignalEvent) :=
  last_bar <- py_index features (-1) ;;
  last_long <- py_index (time longs) (-1) ;;
  if feature_time last_bar =? last_long then
    entry_price <- py_index (price longs) (-1) ;;
    entry_ts <- py_index (time longs) (-1) ;;
    let final_tp_price := (entry_price + entry_price * 0x1.47ae147ae147bp-8)%float in
    make_signal op_data timeframe symbol exchange "LONG"
                entry_price entry_ts final_tp_price
  else
    last_short <- py_index (time shorts) (-1) ;;
    if feature_time last_bar =? last_short then
      entry_price <- py_index (price shorts) (-1) ;;
      entry_ts <- py_index (time shorts) (-1) ;;
      let final_tp_price := (entry_price - entry_price * 0x1.47ae147ae147bp-8)%float in
      make_signal op_data timeframe symbol exchange "SHORT"
                  entry_price entry_ts final_tp_price
    else Ok None.

(** The block under [except IndexError:]; the diagnostic prints read
    [features[-1]] before [sys.exit(0)]. *)
Definition on_IndexError (features : list feature) : outcome (option SignalEvent) :=
  _ <- py_index features (-1) ;; SystemExit 0.

(** [run(self, op_data, req_data, timeframe, symbol, exchange)]; the
    result is paired with the log after the call.  A call that falls off
    the end of the function returns [None]. *)
Definition run (op_data : gmap string DataFrame) (req_data : list DataFrame)
  (timeframe symbol exchange : string) (log : list string)
  : outcome (option SignalEvent) * list string :=
  let log' :=
    logger_info ("Running " +:+ timeframe +:+ " " +:+ name +:+ ".") log in
  let result :=
    if bool_decide (timeframe ∈ operating_timeframes) then
      df <- getitem op_data timeframe ;;
      let features := zip_features df in
      ls <- scan_crosses features (length df) ;;
      let '(longs, shorts) := ls in
      if (0 <? Z.of_nat (length (time longs)))
         || (0 <? Z.of_nat (length (time shorts))) then
        try_except_IndexError
          (select_trigger op_data timeframe symbol exchange features longs shorts)
          (on_IndexError features)
      else Ok None
    else Ok None in
  (result, log').

(** [get_required_timeframes(self, timeframes, result=False)]: with
    [result] the list object passed in is returned, otherwise nothing is
    done and [None] is returned. *)
Definition get_required_timeframes (timeframes : nat) (result : bool) (h : store)
  : outcome (option nat) * store :=
  if result then (Ok (Some timeframes), h) else (Ok None, h).

End EMACrossTestingOnly.

(** ** class EQTrendFollowing *)

Module EQTrendFollowing.

Definition name : string := "10/20 EMA EQ Trend-following".

Definition operating_timeframes : list string :=
  ["1Min"; "5Min"; "15Min"; "30Min"; "1H"; "2H"; "3H"; "4H";
   "6H"; "8H"; "12H"; "16H"; "1D"; "2D"; "3D"; "7D"; "14D"].

(** Truth value of [signal] in [if signal:], for [signal] either [None]
    or an event. *)
Definition truthy (signal : option SignalEvent) : bool :=
  match signal with None => false | Some _ => true end.

(** [run(self, op_data, req_data, timeframe, symbol, exchange)]: the model
    logic is a stub, [signal] is bound to [None] and tested. *)
Definition run (op_data : gmap string DataFrame) (req_data : list DataFrame)
  (timeframe symbol exchange : string) (log : list string)
  : outcome (option SignalEvent) * list string :=
  let log' :=
    logger_info ("Running " +:+ timeframe +:+ " " +:+ name +:+ ".") log in
  let signal : option SignalEvent := None in
  (if truthy signal then Ok signal else Ok None, log').

(** [if c not in timeframes and c not in to_add: to_add.append(c)]. *)
Definition add_if_new (c : string) (timeframes to_add : list string)
  : list string :=
  if not_in c timeframes && not_in c to_add then to_add ++ [c] else to_add.

(** The body of [for timeframe in timeframes], on the list [to_add]. *)
Definition double_timeframe (timeframes to_add : list string) (timeframe : string)
  : outcome (list string) :=
  if String.eqb timeframe "1Min" then
    Ok (add_if_new "3Min" timeframes to_add)
  else if String.eqb timeframe "3Min" then
    Ok (add_if_new "5Min" timeframes to_add)
  else if String.eqb timeframe "5Min" then
    Ok (add_if_new "15Min" timeframes to_add)
  else if String.eqb timeframe "30Min" then
    Ok (add_if_new "1H" timeframes to_add)
  else if String.eqb timeframe "12H" || String.eqb timeframe "16H" then
    Ok (add_if_new "1D" timeframes to_add)
  else if String.eqb timeframe "3D" then
    Ok (add_if_new "7D" timeframes to_add)
  else
    (* All other timeframes just double the numeric value. *)
    num <- py_int (join_filter isdigit timeframe) ;;
    let code := findall_alpha timeframe in
    code0 <- py_index code 0 ;;
    Ok (to_add ++ [py_str (num * 2) +:+ code0]).

(** The list [to_add] after the loop over [timeframes]. *)
Definition required (timeframes : list string) : outcome (list string) :=
  for_each (double_timeframe timeframes) timeframes [].

(** [for new_item in to_add: timeframes.append(new_item)]. *)
Definition extend (timeframes : nat) (to_add : list string) (h : store) : store :=
  fold_left (fun h new_item => list_append timeframes new_item h) to_add h.

(** [get_required_timeframes(self, timeframes, result=False)]:
    [timeframes] is a reference to the caller's list.  Without [result]
    the list is amended in place and [None] is returned; with [result] a
    new list holding [to_add] is returned. *)
Definition get_required_timeframes (timeframes : nat) (result : bool) (h : store)
  : outcome (option nat) * store :=
  match required (h !!! timeframes) with
  | Ok to_add =>
      if negb result then (Ok None, extend timeframes to_add h)
      else let '(r, h') := list_new to_add h in (Ok (Some r), h')
  | Raise e => (Raise e, h)
  | SystemExit c => (SystemExit c, h)
  end.

End EQTrendFollowing.


(** ** The model contract *)

(** The abstract class [Model]: the accessors and the two operations every
    strategy overrides. *)
Record Model : Type := mkModel {
  get_name : string;
  get_operating_timeframes : list string;
  run : gmap string DataFrame -> list DataFrame -> string -> string -> string ->
        list string -> outcome (option SignalEvent) * list string;
  get_required_timeframes : nat -> bool -> store -> outcome (option nat) * store
}.

Definition EMACrossTestingOnly_model : Model :=
  mkModel EMACrossTestingOnly.name EMACrossTestingOnly.operating_timeframes
          EMACrossTestingOnly.run EMACrossTestingOnly.get_required_timeframes.

Definition EQTrendFollowing_model : Model :=
  mkModel EQTrendFollowing.name EQTrendFollowing.operating_timeframes
          EQTrendFollowing.run EQTrendFollowing.get_required_timeframes.

(** ** Vocabulary of the properties *)

(** The log after a call of [run] of the model called [name]: one line
    more. *)
Definition logged (name timeframe : string) (log : list string) : list string :=
  log ++ ["Running " +:+ timeframe +:+ " " +:+ name +:+ "."].

(** The explicit table of doubled timeframes, as section 4.2 of the
    specification writes it. *)
Definition explicit_table : list (string * string) :=
  [("1Min", "3Min"); ("3Min", "5Min"); ("5Min", "15Min"); ("30Min", "1H");
   ("12H", "1D"); ("16H", "1D"); ("3D", "7D")].

Definition in_explicit_table (tf : string) : bool :=
  bool_decide (tf ∈ explicit_table.*1).

(** Every character of [s] satisfies [p]. *)
Fixpoint string_forall (p : ascii -> bool) (s : string) : bool :=
  match s with
  | EmptyString => true
  | String c s' => p c && string_forall p s'
  end.

(** A code without any digit character. *)
Definition no_digits (s : string) : Prop :=
  string_forall (fun c => negb (isdigit c)) s = true.



(** What the contract promises of [get_required_timeframes(T, True)]: the
    list returned has no duplicates and shares no element with [T]. *)
Definition returns_only_new_timeframes (m : Model) : Prop :=
  forall (h h' : store) (t r : nat) (T R : list string),
    h !! t = Some T ->
    get_required_timeframes m t true h = (Ok (Some r), h') ->
    h' !! r = Some R ->
    NoDup R /\ (forall x, x ∈ R -> x ∉ T).

(** No indicator cell of the series is Python's [None]. *)
Definition no_None_cell (df : DataFrame) : Prop :=
  Forall (fun b => EMA10 b <> PyNone /\ EMA20 b <> PyNone) df.

(** The codes the explicit table can queue. *)
Definition table_outputs : list string := explicit_table.*2.

(** The table entries queued in [A] are distinct and absent from [T]. *)
Definition table_entries_new (T A : list string) : Prop :=
  NoDup (filter (fun c => c ∈ table_outputs) A)
  /\ (forall x, x ∈ A -> x ∈ table_outputs -> x ∉ T).

(** What the scan made of one bar. *)
Inductive mark : Type :=
  | NoCross
  | LongCross
  | ShortCross.

Definition mark_eqb (x y : mark) : bool :=
  match x, y with
  | NoCross, NoCross | LongCross, LongCross | ShortCross, ShortCross => true
  | _, _ => false
  end.

(** The bars of [df] whose mark is [m], in series order; [marks] gives
    one mark per bar. *)
Fixpoint marked (m : mark) (marks : list mark) (df : list Bar) : list Bar :=
  match marks, df with
  | x :: marks', b :: df' =>
      if mark_eqb x m then b :: marked m marks' df' else marked m marks' df'
  | _, _ => []
  end.

(** The candidate set read off the bars [bs]: their opens and their
    timestamps, in order. *)
Definition candidates_of (bs : list Bar) : EMACrossTestingOnly.candidates :=
  EMACrossTestingOnly.mkCandidates (map open bs) (map index bs).

(** A bar at time [t] opening at [o], with fast and slow averages [f] and
    [s]; the other columns repeat the open. *)
Definition bar (t : Z) (o : float) (f s : Q) : Bar := mkBar t o o o o 1 (Num f) (Num s).

(** [op_data] holding one series, for the timeframe "1Min". *)
Definition one_minute (df : DataFrame) : gmap string DataFrame :=
  {[ "1Min" := df ]}.

(** Three bars: fast under slow twice, then fast over slow. *)
Definition long_cross_series : DataFrame :=
  [bar 60 100 1 2; bar 120 101 1 2; bar 180 102 2 1].

(** Three bars: fast over slow twice, then fast under slow. *)
Definition short_cross_series : DataFrame :=
  [bar 60 100 2 1; bar 120 101 2 1; bar 180 102 1 2].

(** Four bars: a long cross at the third bar, then both averages equal. *)
Definition stale_long_series : DataFrame :=
  [bar 60 100 1 2; bar 120 101 1 2; bar 180 102 2 1; bar 240 103 3 3].

(** Five bars: a long cross at the third bar, a short cross at the last. *)
Definition long_then_short_series : DataFrame :=
  [bar 60 100 1 2; bar 120 101 1 2; bar 180 102 2 1; bar 240 103 2 1;
   bar 300 104 1 2].

(** Four bars: fast under slow twice, then fast over slow twice. *)
Definition settled_long_series : DataFrame :=
  [bar 60 100 1 2; bar 120 101 1 2; bar 180 102 2 1; bar 240 103 2 1].



(** * Properties *)

(** ** Loops and indexing *)

Lemma bind_Ok_inv {A B : Type} (m : outcome A) (k : A -> outcome B) (b : B) :
  bind m k = Ok b -> exists a, m = Ok a /\ k a = Ok b.
Proof. destruct m; simpl; intros H; try discriminate. eauto. Qed.

Lemma for_each_app {A S : Type} (body : S -> A -> outcome S) (l1 l2 : list A) (s : S) :
  for_each body (l1 ++ l2) s = (s' <- for_each body l1 s ;; for_each body l2 s').
Proof.
  revert s. induction l1 as [|x l1 IH]; intros s; simpl; [reflexivity|].
  destruct (body s x); simpl; auto.
Qed.

(** A loop whose body returns on every element and keeps [P] returns, and
    [P] holds of the final state. *)
Lemma for_each_invariant {A S : Type} (P : S -> Prop) (body : S -> A -> outcome S)
  (l : list A) (s : S) :
  P s ->
  Forall (fun x => forall s0, P s0 -> exists s1, body s0 x = Ok s1 /\ P s1) l ->
  exists s', for_each body l s = Ok s' /\ P s'.
Proof.
  intros Hs Hl. revert s Hs.
  induction Hl as [|x l Hx _ IH]; intros s Hs; simpl; [eauto|].
  destruct (Hx s Hs) as (s1 & -> & Hs1). simpl. auto.
Qed.

Lemma py_index_nonneg {A : Type} (l : list A) (i : nat) (x : A) :
  l !! i = Some x -> py_index l (Z.of_nat i) = Ok x.
Proof.
  intros H. pose proof (lookup_lt_Some _ _ _ H) as Hlt.
  unfold py_index.
  replace (0 <=? Z.of_nat i) with true by (symmetry; apply Z.leb_le; lia).
  replace (Z.of_nat i <? Z.of_nat (length l)) with true
    by (symmetry; apply Z.ltb_lt; lia).
  simpl. rewrite Nat2Z.id, H. reflexivity.
Qed.

Lemma py_index_neg {A : Type} (l : list A) (k : nat) (x : A) :
  (0 < k <= length l)%nat ->
  l !! (length l - k)%nat = Some x ->
  py_index l (- Z.of_nat k) = Ok x.
Proof.
  intros Hk H. unfold py_index.
  replace (0 <=? - Z.of_nat k) with false by (symmetry; apply Z.leb_gt; lia).
  replace (- Z.of_nat (length l) <=? - Z.of_nat k) with true
    by (symmetry; apply Z.leb_le; lia).
  replace (- Z.of_nat k <? 0) with true by (symmetry; apply Z.ltb_lt; lia).
  simpl.
  replace (Z.to_nat (Z.of_nat (length l) + - Z.of_nat k)) with (length l - k)%nat by lia.
  rewrite H. reflexivity.
Qed.

Lemma py_index_last {A : Type} (l : list A) (x : A) :
  py_index (l ++ [x]) (-1) = Ok x.
Proof.
  apply (py_index_neg (l ++ [x]) 1 x).
  - rewrite length_app. simpl. lia.
  - rewrite length_app. simpl.
    replace (length l + 1 - 1)%nat with (length l + 0)%nat by lia.
    rewrite lookup_app_r by lia.
    replace (length l + 0 - length l)%nat with 0%nat by lia. reflexivity.
Qed.

Lemma py_index_empty {A : Type} (i : Z) : py_index (@nil A) i = Raise IndexError.
Proof.
  unfold py_index. simpl length. change (Z.of_nat 0) with 0. change (- 0) with 0.
  destruct (0 <=? i) eqn:E1; destruct (i <? 0) eqn:E2; reflexivity.
Qed.

(** ** Comparisons of indicator cells *)

Lemma Qltb_lt (x y : Q) : (x < y)%Q -> Qltb x y = true.
Proof.
  intros H. unfold Qltb. destruct (Qle_bool y x) eqn:E; [|reflexivity].
  apply Qle_bool_iff in E. exfalso. exact (Qlt_not_le _ _ H E).
Qed.

Lemma Qltb_gt (x y : Q) : (y < x)%Q -> Qltb x y = false.
Proof.
  intros H. unfold Qltb.
  assert (Qle_bool y x = true) as ->; [|reflexivity].
  apply Qle_bool_iff. apply Qlt_le_weak. exact H.
Qed.

Lemma Qltb_true_lt (x y : Q) : Qltb x y = true -> (x < y)%Q.
Proof.
  unfold Qltb. intros H. apply negb_true_iff in H.
  apply Qnot_le_lt. intros Hle. apply Qle_bool_iff in Hle. congruence.
Qed.

Lemma Qltb_asym (x y : Q) : Qltb x y = true -> Qltb y x = false.
Proof. intros H. apply Qltb_gt, Qltb_true_lt, H. Qed.

(** ** The crossover scan *)

Section Scan.

Import EMACrossTestingOnly.

Variable features : list feature.

(** A long cross at [i]: slow below fast at [i], above at [i-1] and
    [i-2]; the bar's open and timestamp join [longs]. *)
Lemma check_cross_long (longs shorts : candidates) (i : Z)
  (t t1 t2 : Z) (o o1 o2 : float) (f0 s0 f1 s1 f2 s2 : Q) :
  py_index features i = Ok (t, o, Num f0, Num s0) ->
  py_index features (i - 1) = Ok (t1, o1, Num f1, Num s1) ->
  py_index features (i - 2) = Ok (t2, o2, Num f2, Num s2) ->
  (s0 < f0)%Q -> (f1 < s1)%Q -> (f2 < s2)%Q ->
  check_cross features (longs, shorts) i = Ok (record_cross longs o t, shorts).
Proof.
  intros H0 H1 H2 L0 L1 L2. unfold check_cross.
  rewrite H0, H1, H2. simpl. unfold py_gt, py_and. simpl.
  rewrite (Qltb_gt f0 s0 L0). simpl.
  rewrite (Qltb_lt s0 f0 L0). simpl.
  rewrite (Qltb_lt f1 s1 L1). simpl.
  rewrite (Qltb_lt f2 s2 L2). reflexivity.
Qed.

(** When [features[i - 2]] is the row [features[i]] itself, as on a
    two-bar series, the cross conditions contradict each other: nothing is
    recorded.  Comparing against [None] raises [TypeError]. *)
Lemma check_cross_same_row (ls : candidates * candidates) (i : Z) (f f1 : feature) :
  py_index features i = Ok f ->
  py_index features (i - 1) = Ok f1 ->
  py_index features (i - 2) = Ok f ->
  check_cross features ls i = Ok ls \/ check_cross features ls i = Raise TypeError.
Proof.
  intros H0 H1 H2. unfold check_cross. destruct ls as [longs shorts].
  rewrite H0, H1, H2. simpl bind.
  destruct f as [[[t o] fast] slow], f1 as [[[t1 o1] fast1] slow1].
  destruct fast as [| |x], slow as [| |y]; simpl; auto;
    destruct fast1 as [| |x1], slow1 as [| |y1]; simpl;
    unfold py_gt, py_and; simpl; auto.
  all: destruct (Qltb x y) eqn:Exy; destruct (Qltb y x) eqn:Eyx; simpl; auto.
  all: try (rewrite (Qltb_asym _ _ Exy) in Eyx; discriminate).
  all: try (destruct (Qltb y1 x1); simpl; auto).
  all: try (destruct (Qltb x1 y1); simpl; auto).
Qed.

(** The scan of [n+1] bars is the scan of the first [n] followed by the
    check at index [n]. *)
Lemma scan_crosses_S (n : nat) :
  scan_crosses features (S n) =
  (ls <- scan_crosses features n ;; check_cross features ls (Z.of_nat n)).
Proof.
  unfold scan_crosses. rewrite seq_S, map_app, for_each_app. simpl.
  destruct (for_each _ _ _); simpl; try reflexivity.
  destruct (check_cross features a (Z.of_nat n)); reflexivity.
Qed.

End Scan.

(** ** [EMACrossTestingOnly.run] *)

Section Run.

Import EMACrossTestingOnly.

Variable op_data : gmap string DataFrame.
Variable req_data : list DataFrame.
Variables timeframe symbol exchange : string.

Lemma zip_features_snoc3 (pre : DataFrame) (b2 b1 b0 : Bar) :
  zip_features (pre ++ [b2; b1; b0]) =
  zip_features pre
    ++ [(index b2, open b2, EMA10 b2, EMA20 b2);
        (index b1, open b1, EMA10 b1, EMA20 b1);
        (index b0, open b0, EMA10 b0, EMA20 b0)].
Proof. unfold zip_features. rewrite map_app. reflexivity. Qed.

Lemma zip_features_length (df : DataFrame) : length (zip_features df) = length df.
Proof. unfold zip_features. apply length_map. Qed.

(** Once the scan has put the final bar last in [longs], the trigger
    selection returns the LONG signal built from that bar. *)
Lemma select_trigger_long (df : DataFrame) (fs : list feature)
  (t : Z) (o : float) (c1 c2 : cell) (l shorts : candidates) :
  op_data !! timeframe = Some df ->
  select_trigger op_data timeframe symbol exchange (fs ++ [(t, o, c1, c2)])
                 (record_cross l o t) shorts =
  Ok (Some (mkSignalEvent symbol t "LONG" timeframe name exchange o "Market"
              [((o + o * 0x1.47ae147ae147bp-8)%float, 100)] None None false None df)).
Proof.
  intros Hdf. unfold select_trigger, record_cross. simpl.
  rewrite !py_index_last. simpl. rewrite Z.eqb_refl.
  unfold make_signal, getitem. rewrite Hdf. reflexivity.
Qed.

End Run.

(** *** What [run] does with the two candidate sets *)

Section Trigger.

Import EMACrossTestingOnly.

Variable op_data : gmap string DataFrame.
Variable req_data : list DataFrame.
Variables timeframe symbol exchange : string.
Variable log : list string.
Variable df : DataFrame.
Variables longs shorts : candidates.

Hypothesis Hop : timeframe ∈ operating_timeframes.
Hypothesis Hdf : op_data !! timeframe = Some df.
Hypothesis Hscan : scan_crosses (zip_features df) (length df) = Ok (longs, shorts).

(** An exception of the scan leaves [run] as it is. *)
Lemma run_scan_raises (e : exn) :
  scan_crosses (zip_features df) (length df) = Raise e ->
  run op_data req_data timeframe symbol exchange log =
    (Raise e, logged name timeframe log).
Proof.
  intros He. unfold run, logged, logger_info.
  rewrite bool_decide_true by exact Hop.
  unfold getitem at 1. rewrite Hdf. simpl bind. rewrite He. reflexivity.
Qed.

(** [run] once the scan has returned. *)
Lemma run_after_scan :
  run op_data req_data timeframe symbol exchange log =
  (if (0 <? Z.of_nat (length (time longs))) || (0 <? Z.of_nat (length (time shorts)))
   then try_except_IndexError
          (select_trigger op_data timeframe symbol exchange (zip_features df)
                          longs shorts)
          (on_IndexError (zip_features df))
   else Ok None,
   logged name timeframe log).
Proof.
  unfold run, logged, logger_info.
  rewrite bool_decide_true by exact Hop.
  unfold getitem at 1. rewrite Hdf. simpl bind. rewrite Hscan. reflexivity.
Qed.

(** Neither set has an entry: no signal. *)
Lemma run_no_candidates :
  time longs = [] -> time shorts = [] ->
  run op_data req_data timeframe symbol exchange log =
    (Ok None, logged name timeframe log).
Proof. intros Hl Hs. rewrite run_after_scan, Hl, Hs. reflexivity. Qed.

(** A candidate was recorded, so the series has a last bar. *)
Lemma scan_recorded_last_bar :
  time longs <> [] \/ time shorts <> [] ->
  exists fs f, zip_features df = fs ++ [f].
Proof.
  intros Hne. destruct (zip_features df) as [|f0 fs0] eqn:E using rev_ind.
  - exfalso. assert (df = []) as Hnil.
    { destruct df; [reflexivity|discriminate]. }
    rewrite Hnil in Hscan. vm_compute in Hscan. injection Hscan as <- <-.
    destruct Hne as [Hne|Hne]; apply Hne; reflexivity.
  - eauto.
Qed.

(** No long recorded but a short one: [longs['time'][-1]] raises, the
    handler exits. *)
Lemma run_exits_without_long :
  time longs = [] -> time shorts <> [] ->
  run op_data req_data timeframe symbol exchange log =
    (SystemExit 0, logged name timeframe log).
Proof.
  intros Hl Hs. rewrite run_after_scan.
  destruct (scan_recorded_last_bar (or_intror Hs)) as (fs & f & ->).
  unfold select_trigger, on_IndexError. rewrite Hl.
  rewrite !py_index_last, py_index_empty.
  destruct (time shorts) as [|t0 ts0]; [congruence|]. reflexivity.
Qed.

(** A long recorded that is not the final bar, and no short: 
    [shorts['time'][-1]] raises, the handler exits. *)
Lemma run_exits_without_short (tl : list Z) (t : Z) (fs : list feature) (f : feature) :
  zip_features df = fs ++ [f] ->
  time longs = tl ++ [t] -> feature_time f <> t -> time shorts = [] ->
  run op_data req_data timeframe symbol exchange log =
    (SystemExit 0, logged name timeframe log).
Proof.
  intros Hfs Hl Hne Hs. rewrite run_after_scan, Hl, Hs, Hfs.
  rewrite length_app. simpl length.
  replace (0 <? Z.of_nat (length tl + 1)) with true
    by (symmetry; apply Z.ltb_lt; lia).
  unfold select_trigger, on_IndexError. rewrite Hl, Hs.
  rewrite !py_index_last. simpl bind.
  rewrite (proj2 (Z.eqb_neq _ _) Hne), ?py_index_empty. reflexivity.
Qed.

(** Both sets have entries and the final bar is the latest short, not the
    latest long: the SHORT signal, with its target half a percent under
    the entry. *)
Lemma run_short_after_long (tl ts : list Z) (t t' : Z) (ps : list float) (p : float)
  (fs : list feature) (f : feature) :
  zip_features df = fs ++ [f] ->
  time longs = tl ++ [t] -> time shorts = ts ++ [t'] -> price shorts = ps ++ [p] ->
  feature_time f <> t -> feature_time f = t' ->
  run op_data req_data timeframe symbol exchange log =
    (Ok (Some (mkSignalEvent symbol t' "SHORT" timeframe name exchange p "Market"
                 [((p - p * 0x1.47ae147ae147bp-8)%float, 100)] None None false None df)),
     logged name timeframe log).
Proof.
  intros Hfs Hl Hs Hp Hne He. rewrite run_after_scan, Hl, Hs, Hfs.
  rewrite length_app. simpl length.
  replace (0 <? Z.of_nat (length tl + 1)) with true
    by (symmetry; apply Z.ltb_lt; lia).
  unfold select_trigger. rewrite Hl, Hs, Hp.
  rewrite !py_index_last. simpl bind.
  rewrite (proj2 (Z.eqb_neq _ _) Hne), (proj2 (Z.eqb_eq _ _) He).
  unfold make_signal, getitem. rewrite Hdf. reflexivity.
Qed.

(** Both sets have entries and the final bar is neither latest trigger:
    no signal. *)
Lemma run_no_current_cross (tl ts : list Z) (t t' : Z)
  (fs : list feature) (f : feature) :
  zip_features df = fs ++ [f] ->
  time longs = tl ++ [t] -> time shorts = ts ++ [t'] ->
  feature_time f <> t -> feature_time f <> t' ->
  run op_data req_data timeframe symbol exchange log =
    (Ok None, logged name timeframe log).
Proof.
  intros Hfs Hl Hs Hne Hne'. rewrite run_after_scan, Hl, Hs, Hfs.
  rewrite length_app. simpl length.
  replace (0 <? Z.of_nat (length tl + 1)) with true
    by (symmetry; apply Z.ltb_lt; lia).
  unfold select_trigger. rewrite Hl, Hs.
  rewrite !py_index_last. simpl bind.
  rewrite (proj2 (Z.eqb_neq _ _) Hne), (proj2 (Z.eqb_neq _ _) Hne').
  reflexivity.
Qed.

End Trigger.

(** *** Series too short for a cross *)

(** An empty series: no signal. *)
Lemma run_empty_series (op_data : gmap string DataFrame) (req_data : list DataFrame)
  (timeframe symbol exchange : string) (log : list string) :
  timeframe ∈ EMACrossTestingOnly.operating_timeframes ->
  op_data !! timeframe = Some [] ->
  EMACrossTestingOnly.run op_data req_data timeframe symbol exchange log =
    (Ok None, logged EMACrossTestingOnly.name timeframe log).
Proof.
  intros Hop Hdf.
  apply (run_no_candidates op_data req_data timeframe symbol exchange log []
           EMACrossTestingOnly.no_candidates EMACrossTestingOnly.no_candidates);
    auto.
Qed.

(** Two bars: the wrapped indices make every check compare a bar with
    itself, so no signal comes out; a [None] cell met by a comparison
    raises [TypeError]. *)
Lemma run_two_bars (op_data : gmap string DataFrame) (req_data : list DataFrame)
  (timeframe symbol exchange : string) (log : list string) (b0 b1 : Bar) :
  timeframe ∈ EMACrossTestingOnly.operating_timeframes ->
  op_data !! timeframe = Some [b0; b1] ->
  EMACrossTestingOnly.run op_data req_data timeframe symbol exchange log =
    (Ok None, logged EMACrossTestingOnly.name timeframe log)
  \/ EMACrossTestingOnly.run op_data req_data timeframe symbol exchange log =
    (Raise TypeError, logged EMACrossTestingOnly.name timeframe log).
Proof.
  intros Hop Hdf.
  set (fs := EMACrossTestingOnly.zip_features [b0; b1]).
  set (none := (EMACrossTestingOnly.no_candidates, EMACrossTestingOnly.no_candidates)).
  assert (Hscan : EMACrossTestingOnly.scan_crosses fs 2 = Ok none
                  \/ EMACrossTestingOnly.scan_crosses fs 2 = Raise TypeError).
  { assert (Hunf : EMACrossTestingOnly.scan_crosses fs 2 =
              (s1 <- EMACrossTestingOnly.check_cross fs none 0 ;;
               s2 <- EMACrossTestingOnly.check_cross fs s1 1 ;; Ok s2))
      by reflexivity.
    rewrite Hunf.
    destruct (check_cross_same_row fs none 0
                (index b0, open b0, EMA10 b0, EMA20 b0)
                (index b1, open b1, EMA10 b1, EMA20 b1)) as [H0|H0];
      try reflexivity; rewrite H0; [|right; reflexivity].
    cbv beta iota delta [bind].
    destruct (check_cross_same_row fs none 1
                (index b1, open b1, EMA10 b1, EMA20 b1)
                (index b0, open b0, EMA10 b0, EMA20 b0)) as [H1|H1];
      try reflexivity; rewrite H1; [left|right]; reflexivity. }
  destruct Hscan as [Hscan|Hscan].
  - left.
    apply (run_no_candidates op_data req_data timeframe symbol exchange log
             [b0; b1] EMACrossTestingOnly.no_candidates
             EMACrossTestingOnly.no_candidates); auto.
  - right.
    apply (run_scan_raises op_data req_data timeframe symbol exchange log
             [b0; b1]); auto.
Qed.

(** *** A long cross at the final bar *)

(** The last step of the scan records the final bar among the longs, and
    the trigger selection looks at the longs first. *)
Lemma long_cross_signal
  (op_data : gmap string DataFrame) (req_data : list DataFrame)
  (timeframe symbol exchange : string) (log : list string)
  (pre : DataFrame) (b2 b1 b0 : Bar) (f0 s0 f1 s1 f2 s2 : Q)
  (longs shorts : EMACrossTestingOnly.candidates) :
  timeframe ∈ EMACrossTestingOnly.operating_timeframes ->
  op_data !! timeframe = Some (pre ++ [b2; b1; b0]) ->
  EMA10 b0 = Num f0 -> EMA20 b0 = Num s0 ->
  EMA10 b1 = Num f1 -> EMA20 b1 = Num s1 ->
  EMA10 b2 = Num f2 -> EMA20 b2 = Num s2 ->
  (s0 < f0)%Q -> (f1 < s1)%Q -> (f2 < s2)%Q ->
  EMACrossTestingOnly.scan_crosses
    (EMACrossTestingOnly.zip_features (pre ++ [b2; b1; b0]))
    (length (pre ++ [b2; b1; b0])) = Ok (longs, shorts) ->
  EMACrossTestingOnly.run op_data req_data timeframe symbol exchange log =
    (Ok (Some (mkSignalEvent symbol (index b0) "LONG" timeframe
                 EMACrossTestingOnly.name exchange (open b0) "Market"
                 [((open b0 + open b0 * 0x1.47ae147ae147bp-8)%float, 100)]
                 None None false None (pre ++ [b2; b1; b0]))),
     logged EMACrossTestingOnly.name timeframe log).
Proof.
  intros Hop Hdf E0 E0' E1 E1' E2 E2' L0 L1 L2 Hscan.
  set (df := pre ++ [b2; b1; b0]) in *.
  set (fs := EMACrossTestingOnly.zip_features df) in *.
  assert (Hlen : length df = S (length pre + 2)).
  { unfold df. rewrite length_app. simpl. lia. }
  assert (Hfs : fs = (EMACrossTestingOnly.zip_features pre
                 ++ [(index b2, open b2, Num f2, Num s2);
                     (index b1, open b1, Num f1, Num s1)])
                 ++ [(index b0, open b0, Num f0, Num s0)]).
  { unfold fs, df. rewrite zip_features_snoc3, E0, E0', E1, E1', E2, E2'.
    rewrite <- app_assoc. reflexivity. }
  assert (Hpre : length (EMACrossTestingOnly.zip_features pre) = length pre)
    by apply zip_features_length.
  (* the last step of the scan records the final bar as a long *)
  assert (Hlongs : exists l', longs = EMACrossTestingOnly.record_cross l' (open b0) (index b0)).
  { rewrite Hlen, scan_crosses_S in Hscan.
    apply bind_Ok_inv in Hscan as ([l' s'] & _ & Hstep).
    rewrite (check_cross_long fs l' s' _ (index b0) (index b1) (index b2)
               (open b0) (open b1) (open b2) f0 s0 f1 s1 f2 s2) in Hstep; auto.
    - injection Hstep as <- <-. eauto.
    - rewrite Hfs.
      replace (Z.of_nat (length pre + 2)) with (Z.of_nat (length pre + 2)%nat) by lia.
      apply py_index_nonneg. rewrite lookup_app_r; rewrite length_app, Hpre; simpl; [|lia].
      replace (length pre + 2 - (length pre + 2))%nat with 0%nat by lia. reflexivity.
    - rewrite Hfs.
      replace (Z.of_nat (length pre + 2) - 1) with (Z.of_nat (length pre + 1)%nat) by lia.
      apply py_index_nonneg. rewrite <- app_assoc. rewrite lookup_app_r; rewrite Hpre; [|lia].
      replace (length pre + 1 - length pre)%nat with 1%nat by lia. reflexivity.
    - rewrite Hfs.
      replace (Z.of_nat (length pre + 2) - 2) with (Z.of_nat (length pre + 0)%nat) by lia.
      apply py_index_nonneg. rewrite <- app_assoc. rewrite lookup_app_r; rewrite Hpre; [|lia].
      replace (length pre + 0 - length pre)%nat with 0%nat by lia. reflexivity. }
  destruct Hlongs as (l' & ->).
  unfold EMACrossTestingOnly.run, logged, logger_info.
  rewrite bool_decide_true by exact Hop.
  unfold getitem at 1. rewrite Hdf. fold df. simpl bind. fold fs.
  rewrite Hscan. simpl bind. cbv iota beta.
  rewrite Hfs. rewrite (select_trigger_long op_data timeframe symbol exchange df); auto.
  simpl EMACrossTestingOnly.time. rewrite length_app. simpl length.
  replace (0 <? Z.of_nat (length (EMACrossTestingOnly.time l') + 1)) with true
    by (symmetry; apply Z.ltb_lt; lia).
  reflexivity.
Qed.


(** *** The scan on series without [None] *)

Section Total.

Import EMACrossTestingOnly.

Lemma py_index_in_range {A : Type} (l : list A) (k : Z) :
  - Z.of_nat (length l) <= k < Z.of_nat (length l) ->
  exists x, py_index l k = Ok x /\ x ∈ l.
Proof.
  intros Hk. destruct (Z_lt_le_dec k 0) as [Hneg|Hpos].
  - destruct (lookup_lt_is_Some_2 l (Z.to_nat (Z.of_nat (length l) + k)))
      as (x & Hx); [lia|].
    exists x. split; [|apply list_elem_of_lookup; eauto].
    replace k with (- Z.of_nat (Z.to_nat (- k))) by lia.
    apply py_index_neg; [lia|].
    replace (length l - Z.to_nat (- k))%nat
      with (Z.to_nat (Z.of_nat (length l) + k)) by lia.
    exact Hx.
  - destruct (lookup_lt_is_Some_2 l (Z.to_nat k)) as (x & Hx); [lia|].
    exists x. split; [|apply list_elem_of_lookup; eauto].
    replace k with (Z.of_nat (Z.to_nat k)) by lia.
    apply py_index_nonneg. exact Hx.
Qed.

Lemma zip_features_no_None (df : DataFrame) (t : Z) (o : float) (fast slow : cell) :
  no_None_cell df -> (t, o, fast, slow) ∈ zip_features df ->
  fast <> PyNone /\ slow <> PyNone.
Proof.
  unfold no_None_cell, zip_features. intros Hdf Hin.
  apply list_elem_of_fmap in Hin as (b & Hb & Hin).
  rewrite Forall_forall in Hdf. injection Hb as -> -> -> ->.
  apply Hdf, Hin.
Qed.

(** On a series of two bars or more without [None], every check of the
    scan returns. *)
Lemma check_cross_total (df : DataFrame) (ls : candidates * candidates) (i : Z) :
  no_None_cell df -> (2 <= length df)%nat -> 0 <= i < Z.of_nat (length df) ->
  exists ls', check_cross (zip_features df) ls i = Ok ls'.
Proof.
  intros Hdf Hlen Hi. unfold check_cross. destruct ls as [longs shorts].
  pose proof (zip_features_length df) as Hfl.
  destruct (py_index_in_range (zip_features df) i) as ([[[t o] f] s] & -> & H0);
    [lia|].
  destruct (py_index_in_range (zip_features df) (i - 1))
    as ([[[t1 o1] f1] s1] & -> & H1); [lia|].
  destruct (py_index_in_range (zip_features df) (i - 2))
    as ([[[t2 o2] f2] s2] & -> & H2); [lia|].
  destruct (zip_features_no_None df _ _ _ _ Hdf H0) as [Nf Ns].
  destruct (zip_features_no_None df _ _ _ _ Hdf H1) as [Nf1 Ns1].
  destruct (zip_features_no_None df _ _ _ _ Hdf H2) as [Nf2 Ns2].
  simpl bind.
  destruct f, s, f1, s1, f2, s2; try congruence;
    unfold py_gt, py_and; simpl;
    repeat match goal with
    | |- context [Qltb ?a ?b] => destruct (Qltb a b); simpl
    end; eauto.
Qed.

Lemma scan_crosses_total (df : DataFrame) :
  no_None_cell df -> (2 <= length df)%nat ->
  exists longs shorts,
    scan_crosses (zip_features df) (length df) = Ok (longs, shorts).
Proof.
  intros Hdf Hlen. unfold scan_crosses.
  destruct (for_each_invariant (fun _ => True) (check_cross (zip_features df))
              (map Z.of_nat (seq 0 (length df))) (no_candidates, no_candidates) I)
    as ([longs shorts] & H & _); [|eauto].
  apply Forall_forall. intros i Hi ls _.
  apply list_elem_of_fmap in Hi as (k & -> & Hk). apply elem_of_seq in Hk.
  destruct (check_cross_total df ls (Z.of_nat k) Hdf Hlen) as (ls' & Hls'); [lia|].
  eauto.
Qed.

End Total.

(** Without [None] in the series the scan always completes, so a clean
    long cross at the final bar alone gives the LONG signal. *)
Lemma long_cross_signal_without_None
  (op_data : gmap string DataFrame) (req_data : list DataFrame)
  (timeframe symbol exchange : string) (log : list string)
  (pre : DataFrame) (b2 b1 b0 : Bar) (f0 s0 f1 s1 f2 s2 : Q) :
  timeframe ∈ EMACrossTestingOnly.operating_timeframes ->
  op_data !! timeframe = Some (pre ++ [b2; b1; b0]) ->
  no_None_cell (pre ++ [b2; b1; b0]) ->
  EMA10 b0 = Num f0 -> EMA20 b0 = Num s0 ->
  EMA10 b1 = Num f1 -> EMA20 b1 = Num s1 ->
  EMA10 b2 = Num f2 -> EMA20 b2 = Num s2 ->
  (s0 < f0)%Q -> (f1 < s1)%Q -> (f2 < s2)%Q ->
  EMACrossTestingOnly.run op_data req_data timeframe symbol exchange log =
    (Ok (Some (mkSignalEvent symbol (index b0) "LONG" timeframe
                 EMACrossTestingOnly.name exchange (open b0) "Market"
                 [((open b0 + open b0 * 0x1.47ae147ae147bp-8)%float, 100)]
                 None None false None (pre ++ [b2; b1; b0]))),
     logged EMACrossTestingOnly.name timeframe log).
Proof.
  intros Hop Hdf Hnone E0 E0' E1 E1' E2 E2' L0 L1 L2.
  destruct (scan_crosses_total (pre ++ [b2; b1; b0]) Hnone)
    as (longs & shorts & Hscan).
  { rewrite length_app. simpl. lia. }
  apply (long_cross_signal op_data req_data timeframe symbol exchange log
           pre b2 b1 b0 f0 s0 f1 s1 f2 s2 longs shorts); assumption.
Qed.




(** C8.  When the timeframe passed to [run] is not one of the model's
    operating timeframes, [run] returns [None] whatever the bar data are;
    the only effect is the log line. *)
Theorem run_outside_operating_timeframes
  (op_data : gmap string DataFrame) (req_data : list DataFrame)
  (timeframe symbol exchange : string) (log : list string) :
  timeframe ∉ EMACrossTestingOnly.operating_timeframes ->
  EMACrossTestingOnly.run op_data req_data timeframe symbol exchange log =
    (Ok None, logged EMACrossTestingOnly.name timeframe log).
Proof.
  intros Hnot. unfold EMACrossTestingOnly.run.
  rewrite bool_decide_false by exact Hnot. reflexivity.
Qed.

Lemma run_outside_operating_timeframes_witness :
  EMACrossTestingOnly.run (one_minute long_cross_series) [] "5Min" "XBTUSD" "BitMEX" [] =
    (Ok None, logged EMACrossTestingOnly.name "5Min" []).
Proof.
  apply (run_outside_operating_timeframes (one_minute long_cross_series) []
           "5Min" "XBTUSD" "BitMEX" []).
  apply (bool_decide_unpack _). vm_compute. exact I.
Defined.

(** C10.  [run] of the trend-following model returns [None] on every
    input; it never builds a signal event. *)
Theorem trend_following_run_returns_None
  (op_data : gmap string DataFrame) (req_data : list DataFrame)
  (timeframe symbol exchange : string) (log : list string) :
  EQTrendFollowing.run op_data req_data timeframe symbol exchange log =
    (Ok None, logged EQTrendFollowing.name timeframe log).
Proof. reflexivity. Qed.

(** C3.  On a series of exactly one bar the scan reads [features[i - 2]]
    with [i = 0], index [-2] of a list of length one: [run] raises
    [IndexError] from outside the [try] block instead of returning no
    signal.  Nothing guards the negative indices. *)
Theorem run_one_bar_raises_IndexError
  (b : Bar) (req_data : list DataFrame) (symbol exchange : string)
  (log : list string) :
  EMACrossTestingOnly.run (one_minute [b]) req_data "1Min" symbol exchange log =
    (Raise IndexError, logged EMACrossTestingOnly.name "1Min" log).
Proof. reflexivity. Qed.

(** C1.  A series with one earlier long cross, no short cross and no cross
    at the final bar: the long set is non-empty and the short set empty,
    [shorts['time'][-1]] raises [IndexError] inside the [try] block and
    the handler leaves through [sys.exit(0)]. *)
Theorem run_stale_long_exits_process :
  EMACrossTestingOnly.scan_crosses
    (EMACrossTestingOnly.zip_features stale_long_series) 4 =
    Ok (EMACrossTestingOnly.mkCandidates [102%float] [180],
        EMACrossTestingOnly.no_candidates)
  /\ EMACrossTestingOnly.run (one_minute stale_long_series) [] "1Min"
       "XBTUSD" "BitMEX" [] =
     (SystemExit 0, logged EMACrossTestingOnly.name "1Min" []).
Proof. split; reflexivity. Qed.

(** C4.  A series whose final bar is the only short cross and which has no
    long cross: the final timestamp equals the latest short trigger, yet
    [longs['time'][-1]] raises [IndexError] and [run] leaves through
    [sys.exit(0)] instead of returning the SHORT signal. *)
Theorem run_short_cross_exits_process :
  EMACrossTestingOnly.scan_crosses
    (EMACrossTestingOnly.zip_features short_cross_series) 3 =
    Ok (EMACrossTestingOnly.no_candidates,
        EMACrossTestingOnly.mkCandidates [102%float] [180])
  /\ py_index (EMACrossTestingOnly.zip_features short_cross_series) (-1) =
     Ok (180, 102%float, Num 1, Num 2)
  /\ EMACrossTestingOnly.run (one_minute short_cross_series) [] "1Min"
       "XBTUSD" "BitMEX" [] =
     (SystemExit 0, logged EMACrossTestingOnly.name "1Min" []).
Proof. repeat split; reflexivity. Qed.

(** ** Digits, letters and decimal numerals *)

Lemma isalpha_not_digit (c : ascii) : isalpha c = true -> isdigit c = false.
Proof.
  destruct c as [[] [] [] [] [] [] [] []]; vm_compute; congruence.
Qed.

Lemma isdigit_not_alpha (c : ascii) : isdigit c = true -> isalpha c = false.
Proof.
  destruct c as [[] [] [] [] [] [] [] []]; vm_compute; congruence.
Qed.




(** [int(str(n)) = n]. *)
Lemma py_int_py_str (n : N) : py_int (py_str n) = Ok n.
Proof.
  unfold py_int, py_str.
  destruct (NilEmpty.string_of_uint (N.to_uint n)) as [|c s] eqn:E.
  - exfalso. assert (Hn : N.to_uint n = Nil).
    { pose proof (NilEmpty.usu (N.to_uint n)) as Hu. rewrite E in Hu.
      simpl in Hu. congruence. }
    pose proof (DecimalN.Unsigned.of_to n) as Hof. rewrite Hn in Hof.
    simpl in Hof. subst n. discriminate Hn.
  - rewrite <- E, NilEmpty.usu, DecimalN.Unsigned.of_to. reflexivity.
Qed.


Lemma join_filter_no_digits (s : string) :
  no_digits s -> join_filter isdigit s = "".
Proof.
  unfold no_digits. induction s as [|c s IH]; simpl; [reflexivity|].
  intros H. apply andb_prop in H as [Hc Hs].
  destruct (isdigit c); [discriminate|]. auto.
Qed.



(** ** [EQTrendFollowing.get_required_timeframes] *)

Section Resolver.

Import EQTrendFollowing.

Lemma not_in_true (x : string) (l : list string) : not_in x l = true <-> x ∉ l.
Proof.
  unfold not_in. rewrite negb_true_iff, bool_decide_eq_false. reflexivity.
Qed.

(** A code of the table is handled by its own branch. *)
Lemma double_timeframe_table (T A : list string) (tf c : string) :
  (tf, c) ∈ explicit_table ->
  double_timeframe T A tf = Ok (add_if_new c T A).
Proof.
  unfold explicit_table. intros H.
  repeat (apply elem_of_cons in H as [H|H]; [injection H as -> ->; reflexivity|]).
  apply elem_of_nil in H. contradiction.
Qed.

Lemma in_explicit_table_true (tf : string) :
  in_explicit_table tf = true -> exists c, (tf, c) ∈ explicit_table.
Proof.
  unfold in_explicit_table. intros H. apply bool_decide_eq_true in H.
  apply list_elem_of_fmap in H as ([tf' c] & -> & H). eauto.
Qed.

(** A code outside the table falls through every test of the chain. *)
Lemma double_timeframe_fallback (T A : list string) (tf : string) :
  in_explicit_table tf = false ->
  double_timeframe T A tf =
    (num <- py_int (join_filter isdigit tf) ;;
     code0 <- py_index (findall_alpha tf) 0 ;;
     Ok (A ++ [py_str (num * 2) +:+ code0])).
Proof.
  unfold in_explicit_table. intros H. apply bool_decide_eq_false in H.
  unfold double_timeframe.
  repeat match goal with
  | |- context [String.eqb tf ?k] =>
      destruct (String.eqb_spec tf k) as [->|_];
      [exfalso; apply H; apply (bool_decide_unpack _); vm_compute; exact I|]
  end.
  reflexivity.
Qed.


(** A code without digits reaches the fallback, where [int('')] fails. *)
Lemma double_timeframe_no_digits (T A : list string) (tf : string) :
  no_digits tf -> double_timeframe T A tf = Raise ValueError.
Proof.
  intros H. rewrite double_timeframe_fallback.
  - rewrite (join_filter_no_digits tf H). reflexivity.
  - unfold in_explicit_table. apply bool_decide_eq_false. intros Hin.
    unfold explicit_table in Hin. simpl in Hin.
    repeat (apply elem_of_cons in Hin as [->|Hin]; [vm_compute in H; discriminate|]).
    apply elem_of_nil in Hin. contradiction.
Qed.

(** The loop body never leaves through [sys.exit]. *)
Lemma double_timeframe_no_exit (T A : list string) (tf : string) (c : Z) :
  double_timeframe T A tf <> SystemExit c.
Proof.
  unfold double_timeframe.
  repeat match goal with
  | |- context [if ?b then _ else _] => destruct b; try discriminate
  end.
  destruct (py_int _) as [n| |] eqn:En; simpl; try discriminate.
  - destruct (py_index _ 0) as [x| |] eqn:Ex; simpl; try discriminate.
    unfold py_index in Ex.
    repeat match type of Ex with
    | context [if ?b then _ else _] => destruct b; try discriminate
    | context [match ?o with Some _ => _ | None => _ end] =>
        destruct o; try discriminate
    end.
  - unfold py_int in En. destruct (join_filter isdigit tf); [discriminate|].
    destruct (NilEmpty.uint_of_string _); discriminate.
Qed.

(** If the body fails on some element of the list, the loop fails. *)
Lemma required_loop_fails (T l A : list string) (tf : string) :
  tf ∈ l -> (forall A', exists e, double_timeframe T A' tf = Raise e) ->
  exists e, for_each (double_timeframe T) l A = Raise e.
Proof.
  intros Hin Hfail. revert A.
  induction l as [|x l IH]; intros A; [apply elem_of_nil in Hin; contradiction|].
  simpl. destruct (double_timeframe T A x) as [A1|e|c] eqn:E; simpl.
  - apply elem_of_cons in Hin as [->|Hin]; [|auto].
    destruct (Hfail A) as (e & He). congruence.
  - eauto.
  - exfalso. exact (double_timeframe_no_exit T A x c E).
Qed.

(** Appending in place, item by item, appends the whole list. *)
Lemma extend_spec (t : nat) (A T : list string) (h : store) :
  h !! t = Some T -> extend t A h = <[t := T ++ A]> h.
Proof.
  revert T h. unfold extend.
  induction A as [|a A IH]; intros T h Ht; simpl.
  - rewrite app_nil_r. symmetry. apply insert_id. exact Ht.
  - unfold list_append at 2. rewrite (lookup_total_correct _ _ _ Ht).
    rewrite (IH (T ++ [a])) by apply lookup_insert_eq.
    rewrite insert_insert_eq, <- app_assoc. reflexivity.
Qed.

(** The two modes of the call, in terms of the list [required] builds. *)
Lemma get_required_timeframes_spec (t : nat) (result : bool) (h : store)
  (T A : list string) :
  h !! t = Some T -> required T = Ok A ->
  get_required_timeframes t result h =
    if result then (Ok (Some (fresh (dom h))), <[fresh (dom h) := A]> h)
    else (Ok None, <[t := T ++ A]> h).
Proof.
  intros Ht HA. unfold get_required_timeframes.
  rewrite (lookup_total_correct _ _ _ Ht), HA.
  destruct result; simpl; [reflexivity|].
  rewrite (extend_spec t A T h Ht). reflexivity.
Qed.

(** Candidates of the table keep [to_add] duplicate-free and apart from
    the input list. *)
Lemma add_if_new_fresh (c : string) (T A : list string) :
  NoDup A /\ (forall x, x ∈ A -> x ∉ T) ->
  NoDup (add_if_new c T A) /\ (forall x, x ∈ add_if_new c T A -> x ∉ T).
Proof.
  intros [Hnd Hdisj]. unfold add_if_new.
  destruct (not_in c T) eqn:ET; simpl; [|auto].
  destruct (not_in c A) eqn:EA; simpl; [|auto].
  apply not_in_true in ET. apply not_in_true in EA. split.
  - apply NoDup_app. repeat split; auto.
    + intros x Hx Hx'. apply list_elem_of_singleton in Hx'. subst. auto.
    + apply NoDup_singleton.
  - intros x Hx. apply elem_of_app in Hx as [Hx|Hx]; [auto|].
    apply list_elem_of_singleton in Hx. subst. exact ET.
Qed.

Lemma required_table_fresh (T : list string) :
  Forall (fun tf => in_explicit_table tf = true) T ->
  exists R, required T = Ok R /\ NoDup R /\ (forall x, x ∈ R -> x ∉ T).
Proof.
  intros HT. unfold required.
  assert (Hgen : forall l, Forall (fun tf => in_explicit_table tf = true) l ->
    exists R, for_each (double_timeframe T) l [] = Ok R
              /\ (NoDup R /\ (forall x, x ∈ R -> x ∉ T))).
  { intros l Hl.
    apply (for_each_invariant (fun A => NoDup A /\ (forall x, x ∈ A -> x ∉ T))).
    - split; [apply NoDup_nil_2|]. intros x Hx. apply elem_of_nil in Hx. contradiction.
    - eapply Forall_impl; [exact Hl|]. intros tf Htf A HA. simpl in Htf.
      destruct (in_explicit_table_true tf Htf) as (c & Hc).
      exists (add_if_new c T A). split; [apply double_timeframe_table, Hc|].
      apply add_if_new_fresh, HA. }
  destruct (Hgen T HT) as (R & HR & HP). eauto.
Qed.

End Resolver.



(** The examples of the specification. *)
Example resolver_examples :
  EQTrendFollowing.required ["1Min"] = Ok ["3Min"]
  /\ EQTrendFollowing.required ["3Min"] = Ok ["5Min"]
  /\ EQTrendFollowing.required ["5Min"] = Ok ["15Min"]
  /\ EQTrendFollowing.required ["30Min"] = Ok ["1H"]
  /\ EQTrendFollowing.required ["12H"] = Ok ["1D"]
  /\ EQTrendFollowing.required ["16H"] = Ok ["1D"]
  /\ EQTrendFollowing.required ["3D"] = Ok ["7D"]
  /\ EQTrendFollowing.required ["4H"] = Ok ["8H"]
  /\ EQTrendFollowing.required ["2D"] = Ok ["4D"]
  /\ EQTrendFollowing.required ["1D"] = Ok ["2D"].
Proof. repeat split; reflexivity. Qed.

(** C9.  A timeframe code without any digit character reaches the generic
    fallback, where [int('')] raises [ValueError]: a call of
    [get_required_timeframes] on a list holding such a code raises instead
    of returning and leaves the list as it was, and the exception is
    [ValueError] when that code comes first. *)
Theorem resolver_no_digits_fails
  (T : list string) (tf : string) (t : nat) (result : bool) (h : store) :
  no_digits tf -> tf ∈ T -> h !! t = Some T ->
  (forall A, EQTrendFollowing.double_timeframe T A tf = Raise ValueError)
  /\ (exists e, EQTrendFollowing.get_required_timeframes t result h = (Raise e, h))
  /\ (head T = Some tf ->
      EQTrendFollowing.get_required_timeframes t result h = (Raise ValueError, h)).
Proof.
  intros H Hin Ht. split; [|split].
  - intros A. apply double_timeframe_no_digits, H.
  - unfold EQTrendFollowing.get_required_timeframes.
    rewrite (lookup_total_correct _ _ _ Ht). unfold EQTrendFollowing.required.
    destruct (required_loop_fails T T [] tf Hin) as (e & ->); [|eauto].
    intros A'. exists ValueError. apply double_timeframe_no_digits, H.
  - intros Hhd. unfold EQTrendFollowing.get_required_timeframes.
    rewrite (lookup_total_correct _ _ _ Ht). unfold EQTrendFollowing.required.
    destruct T as [|x T']; [discriminate|]. injection Hhd as ->.
    simpl. rewrite (double_timeframe_no_digits _ _ tf H). reflexivity.
Qed.

Lemma resolver_no_digits_fails_witness :
  (forall A, EQTrendFollowing.double_timeframe ["Min"; "1H"] A "Min" = Raise ValueError)
  /\ (exists e,
        EQTrendFollowing.get_required_timeframes 0 false {[ 0%nat := ["Min"; "1H"] ]} =
          (Raise e, {[ 0%nat := ["Min"; "1H"] ]}))
  /\ (head ["Min"; "1H"] = Some "Min" ->
      EQTrendFollowing.get_required_timeframes 0 false {[ 0%nat := ["Min"; "1H"] ]} =
        (Raise ValueError, {[ 0%nat := ["Min"; "1H"] ]})).
Proof.
  apply (resolver_no_digits_fails ["Min"; "1H"] "Min" 0%nat false
           {[ 0%nat := ["Min"; "1H"] ]}).
  - reflexivity.
  - apply (bool_decide_unpack _). vm_compute. exact I.
  - reflexivity.
Defined.

(** C2, as the code has it.  On a list [T] whose codes all lie in the
    explicit table, [get_required_timeframes(T, True)] of the
    trend-following model returns a new list without duplicates and
    sharing no code with [T], and leaves [T] as it was; the same call on
    the crossover model returns the list [T] itself. *)
Theorem required_timeframes_of_table_codes
  (h : store) (t : nat) (T : list string) :
  h !! t = Some T ->
  Forall (fun tf => in_explicit_table tf = true) T ->
  (exists (r : nat) (R : list string),
     EQTrendFollowing.get_required_timeframes t true h =
       (Ok (Some r), <[r := R]> h)
     /\ h !! r = None
     /\ NoDup R
     /\ (forall x, x ∈ R -> x ∉ T))
  /\ EMACrossTestingOnly.get_required_timeframes t true h = (Ok (Some t), h).
Proof.
  intros Ht HT. split; [|reflexivity].
  destruct (required_table_fresh T HT) as (R & HR & Hnd & Hdisj).
  exists (fresh (dom h)), R. repeat split; auto.
  - rewrite (get_required_timeframes_spec t true h T R Ht HR). reflexivity.
  - apply not_elem_of_dom. apply is_fresh.
Qed.

Lemma required_timeframes_of_table_codes_witness :
  (exists (r : nat) (R : list string),
     EQTrendFollowing.get_required_timeframes 0 true
       {[ 0%nat := ["1Min"; "3Min"; "12H"; "16H"] ]} =
       (Ok (Some r), <[r := R]> {[ 0%nat := ["1Min"; "3Min"; "12H"; "16H"] ]})
     /\ ({[ 0%nat := ["1Min"; "3Min"; "12H"; "16H"] ]} : store) !! r = None
     /\ NoDup R
     /\ (forall x, x ∈ R -> x ∉ ["1Min"; "3Min"; "12H"; "16H"]))
  /\ EMACrossTestingOnly.get_required_timeframes 0 true
       {[ 0%nat := ["1Min"; "3Min"; "12H"; "16H"] ]} =
     (Ok (Some 0%nat), {[ 0%nat := ["1Min"; "3Min"; "12H"; "16H"] ]}).
Proof.
  apply (required_timeframes_of_table_codes
           {[ 0%nat := ["1Min"; "3Min"; "12H"; "16H"] ]} 0
           ["1Min"; "3Min"; "12H"; "16H"]).
  - reflexivity.
  - repeat constructor.
Defined.

(** C2 fails as stated for both models: the crossover model hands back
    the input list, and the generic fallback of the trend-following model
    queues "2H" for ["1H"; "2H"] although "2H" is in the input. *)
Lemma returns_only_new_timeframes_fails :
  ~ returns_only_new_timeframes EMACrossTestingOnly_model
  /\ ~ returns_only_new_timeframes EQTrendFollowing_model.
Proof.
  split; intros H.
  - destruct (H ({[ 0%nat := ["1Min"] ]} : store) {[ 0%nat := ["1Min"] ]}
                0%nat 0%nat ["1Min"] ["1Min"]) as [_ Hd]; [reflexivity..|].
    apply (Hd "1Min"); apply list_elem_of_singleton; reflexivity.
  - destruct (H ({[ 0%nat := ["1H"; "2H"] ]} : store)
                (<[1%nat := ["2H"; "4H"]]> {[ 0%nat := ["1H"; "2H"] ]})
                0%nat 1%nat ["1H"; "2H"] ["2H"; "4H"]) as [_ Hd];
      [reflexivity..|].
    apply (Hd "2H"); apply (bool_decide_unpack _); vm_compute; exact I.
Qed.

(** C7.  Called in place on the model's own operating timeframes, the
    call returns [None] and leaves the list with "30Min", "2H", "4H" and
    others twice: the generic fallback appends without looking. *)
Theorem get_required_timeframes_in_place_duplicates :
  exists L : list string,
    EQTrendFollowing.get_required_timeframes 0 false
      {[ 0%nat := EQTrendFollowing.operating_timeframes ]} =
      (Ok None, {[ 0%nat := L ]})
    /\ L = EQTrendFollowing.operating_timeframes
           ++ ["3Min"; "30Min"; "2H"; "4H"; "6H"; "8H"; "12H"; "16H"; "2D";
               "4D"; "14D"; "28D"]
    /\ ~ NoDup L.
Proof.
  eexists. split; [|split]; [| reflexivity |].
  - vm_compute. reflexivity.
  - intros Hnd. apply (bool_decide_pack _) in Hnd. vm_compute in Hnd. exact Hnd.
Qed.

(** * Further properties of the two models *)

(** ** Outcomes of the primitives *)

Lemma py_index_outcome {A : Type} (l : list A) (k : Z) :
  (exists x, py_index l k = Ok x /\ x ∈ l) \/ py_index l k = Raise IndexError.
Proof.
  unfold py_index.
  destruct ((0 <=? k) && (k <? Z.of_nat (length l))).
  - destruct (l !! Z.to_nat k) as [x|] eqn:E; [left|right; reflexivity].
    exists x. split; [reflexivity|]. apply list_elem_of_lookup. eauto.
  - destruct ((- Z.of_nat (length l) <=? k) && (k <? 0)); [|right; reflexivity].
    destruct (l !! Z.to_nat (Z.of_nat (length l) + k)) as [x|] eqn:E;
      [left|right; reflexivity].
    exists x. split; [reflexivity|]. apply list_elem_of_lookup. eauto.
Qed.

Lemma py_index_last_inv {A : Type} (l : list A) (x : A) :
  py_index l (-1) = Ok x -> exists l', l = l' ++ [x].
Proof.
  destruct l as [|y l' _] using rev_ind.
  - rewrite py_index_empty. discriminate.
  - rewrite py_index_last. intros [= ->]. eauto.
Qed.

Lemma py_lt_outcome (a b : cell) :
  (exists c, py_lt a b = Ok c) \/ py_lt a b = Raise TypeError.
Proof. destruct a, b; simpl; eauto. Qed.

Lemma py_lt_no_None (a b : cell) :
  a <> PyNone -> b <> PyNone -> exists c, py_lt a b = Ok c.
Proof. destruct a, b; simpl; intros; try congruence; eauto. Qed.

(** ** What the scan records *)

Section Recorded.

Import EMACrossTestingOnly.

Variable features : list feature.

(** One check leaves the two sets as they are or appends the open and the
    timestamp of row [i] to exactly one of them. *)
Lemma check_cross_step (longs shorts : candidates) (ls' : candidates * candidates)
  (i : Z) (t : Z) (o : float) (fast slow : cell) :
  py_index features i = Ok (t, o, fast, slow) ->
  check_cross features (longs, shorts) i = Ok ls' ->
  ls' = (longs, shorts)
  \/ ls' = (record_cross longs o t, shorts)
  \/ ls' = (longs, record_cross shorts o t).
Proof.
  intros H0. unfold check_cross. rewrite H0. simpl bind.
  destruct (py_index features (i - 1)) as [[[[t1 o1] f1] s1]| |]; simpl;
    try discriminate.
  destruct (py_index features (i - 2)) as [[[[t2 o2] f2] s2]| |]; simpl;
    try discriminate.
  destruct (is_not_None fast && is_not_None slow); [|intros [= <-]; auto].
  unfold py_gt, py_and.
  repeat match goal with
  | |- context [py_lt ?a ?b] =>
      destruct (py_lt a b) as [[|]| |]; simpl; try discriminate
  end; intros [= <-]; auto.
Qed.

(** The other outcome of a check on indices in range is [TypeError]. *)
Lemma check_cross_outcome (ls : candidates * candidates) (i : Z) :
  (2 <= length features)%nat -> 0 <= i < Z.of_nat (length features) ->
  (exists ls', check_cross features ls i = Ok ls')
  \/ check_cross features ls i = Raise TypeError.
Proof.
  intros Hlen Hi. unfold check_cross. destruct ls as [longs shorts].
  destruct (py_index_in_range features i) as ([[[t o] f] s] & -> & _); [lia|].
  destruct (py_index_in_range features (i - 1)) as ([[[t1 o1] f1] s1] & -> & _);
    [lia|].
  destruct (py_index_in_range features (i - 2)) as ([[[t2 o2] f2] s2] & -> & _);
    [lia|].
  simpl bind. destruct (is_not_None f && is_not_None s); [|eauto].
  unfold py_gt, py_and.
  repeat match goal with
  | |- context [py_lt ?a ?b] =>
      destruct (py_lt_outcome a b) as [[[|] ->]| ->]; simpl; eauto
  end.
Qed.

Lemma scan_crosses_outcome (n : nat) :
  (2 <= length features)%nat -> (n <= length features)%nat ->
  (exists ls, scan_crosses features n = Ok ls)
  \/ scan_crosses features n = Raise TypeError.
Proof.
  intros Hlen. induction n as [|n IH]; intros Hn.
  - left. eexists. reflexivity.
  - rewrite scan_crosses_S. destruct IH as [[ls ->]| ->]; [lia| |right; reflexivity].
    simpl bind. apply check_cross_outcome; lia.
Qed.

End Recorded.

Section ScanInvariant.

Import EMACrossTestingOnly.

Variable df : DataFrame.

Lemma zip_features_lookup (k : nat) (b : Bar) :
  df !! k = Some b ->
  py_index (zip_features df) (Z.of_nat k) =
    Ok (index b, open b, EMA10 b, EMA20 b).
Proof.
  intros Hb. apply py_index_nonneg. unfold zip_features.
  change (map ?f ?l) with (f <$> l). rewrite list_lookup_fmap, Hb. reflexivity.
Qed.

Lemma record_cross_candidates_of (bs : list Bar) (b : Bar) :
  record_cross (candidates_of bs) (open b) (index b) = candidates_of (bs ++ [b]).
Proof. unfold record_cross, candidates_of. simpl. rewrite !map_app. reflexivity. Qed.

(** After the first [k] checks both sets are read off bars among the
    first [k], in the order of the series, and together they hold at most
    [k] entries. *)
Lemma scan_crosses_prefix (k : nat) (longs shorts : candidates) :
  (k <= length df)%nat ->
  scan_crosses (zip_features df) k = Ok (longs, shorts) ->
  exists bl bs : list Bar,
    longs = candidates_of bl /\ shorts = candidates_of bs
    /\ bl `sublist_of` take k df /\ bs `sublist_of` take k df
    /\ (length bl + length bs <= k)%nat.
Proof.
  revert longs shorts. induction k as [|k IH]; intros longs shorts Hk Hscan.
  - vm_compute in Hscan. injection Hscan as <- <-.
    exists [], []. repeat split; try apply sublist_nil_l. simpl. lia.
  - rewrite scan_crosses_S in Hscan.
    apply bind_Ok_inv in Hscan as ([l0 s0] & Hscan0 & Hstep).
    destruct (IH l0 s0) as (bl & bs & -> & -> & Hbl & Hbs & Hlen); [lia|auto|].
    destruct (lookup_lt_is_Some_2 df k) as (b & Hb); [lia|].
    rewrite (take_S_r df k b Hb).
    destruct (check_cross_step _ _ _ _ _ _ _ _ _ (zip_features_lookup k b Hb) Hstep)
      as [H|[H|H]]; injection H as -> ->.
    + exists bl, bs. repeat split; auto using sublist_inserts_r; lia.
    + exists (bl ++ [b]), bs. rewrite record_cross_candidates_of.
      repeat split; auto using sublist_inserts_r.
      * apply sublist_app; [exact Hbl|reflexivity].
      * rewrite length_app. simpl. lia.
    + exists bl, (bs ++ [b]). rewrite record_cross_candidates_of.
      repeat split; auto using sublist_inserts_r.
      * apply sublist_app; [exact Hbs|reflexivity].
      * rewrite length_app. simpl. lia.
Qed.

End ScanInvariant.

(** ** The signal [run] returns *)

Section Signal.

Import EMACrossTestingOnly.

Lemma candidates_of_last (bs : list Bar) (t : Z) :
  py_index (map index bs) (-1) = Ok t ->
  exists bs' b, bs = bs' ++ [b] /\ t = index b
    /\ py_index (map index bs) (-1) = Ok (index b)
    /\ py_index (map open bs) (-1) = Ok (open b).
Proof.
  destruct bs as [|b bs' _] using rev_ind.
  - simpl. rewrite py_index_empty. discriminate.
  - rewrite !map_app. simpl map. rewrite !py_index_last. intros [= <-].
    exists bs', b. auto.
Qed.

Lemma zip_features_last (df : DataFrame) (f : feature) :
  py_index (zip_features df) (-1) = Ok f ->
  exists pre last, df = pre ++ [last] /\ feature_time f = index last.
Proof.
  destruct df as [|last pre _] using rev_ind.
  - simpl. rewrite py_index_empty. discriminate.
  - unfold zip_features. rewrite map_app. simpl. rewrite py_index_last.
    intros [= <-]. exists pre, last. auto.
Qed.

(** The handler never returns. *)
Lemma on_IndexError_not_Ok (features : list feature) (o : option SignalEvent) :
  on_IndexError features <> Ok o.
Proof.
  unfold on_IndexError. destruct (py_index features (-1)); simpl; discriminate.
Qed.

(** What a returned signal looks like, from the trigger selection. *)
Lemma select_trigger_signal (op_data : gmap string DataFrame)
  (timeframe symbol exchange : string) (df : DataFrame)
  (bl bs : list Bar) (sig : SignalEvent) :
  op_data !! timeframe = Some df ->
  select_trigger op_data timeframe symbol exchange (zip_features df)
                 (candidates_of bl) (candidates_of bs) = Ok (Some sig) ->
  exists pre last b direction tp,
    df = pre ++ [last] /\ (b ∈ bl \/ b ∈ bs) /\ index b = index last
    /\ sig = mkSignalEvent symbol (index last) direction timeframe name exchange
               (open b) "Market" [(tp, 100)] None None false None df
    /\ (direction = "LONG" /\ b ∈ bl
          /\ tp = (open b + open b * 0x1.47ae147ae147bp-8)%float
        \/ direction = "SHORT" /\ b ∈ bs /\ bl <> []
          /\ tp = (open b - open b * 0x1.47ae147ae147bp-8)%float).
Proof.
  intros Hdf. unfold select_trigger, candidates_of. cbn [time price].
  destruct (py_index (zip_features df) (-1)) as [f| |] eqn:Ef;
    cbv beta iota delta [bind]; try discriminate.
  destruct (zip_features_last df f Ef) as (pre & last & Hdf' & Hf).
  destruct (py_index (map index bl) (-1)) as [tl| |] eqn:El;
    try discriminate.
  destruct (candidates_of_last bl tl El) as (bl' & b & Hbl & -> & Hlt & Hlp).
  destruct (feature_time f =? index b) eqn:Eq.
  - rewrite Hlp. unfold make_signal, getitem. rewrite Hdf.
    intros [= <-]. apply Z.eqb_eq in Eq.
    exists pre, last, b, "LONG", (open b + open b * 0x1.47ae147ae147bp-8)%float.
    assert (b ∈ bl)
      by (rewrite Hbl; apply elem_of_app; right; apply list_elem_of_singleton;
          reflexivity).
    rewrite <- Hf, Eq. repeat split; auto.
  - destruct (py_index (map index bs) (-1)) as [ts| |] eqn:Es;
      try discriminate.
    destruct (candidates_of_last bs ts Es) as (bs' & b' & Hbs & -> & Hst & Hsp).
    destruct (feature_time f =? index b') eqn:Eq'; [|discriminate].
    rewrite Hsp. unfold make_signal, getitem. rewrite Hdf.
    intros [= <-]. apply Z.eqb_eq in Eq'.
    exists pre, last, b', "SHORT", (open b' - open b' * 0x1.47ae147ae147bp-8)%float.
    assert (b' ∈ bs)
      by (rewrite Hbs; apply elem_of_app; right; apply list_elem_of_singleton;
          reflexivity).
    rewrite <- Hf, Eq'. repeat split; auto.
    right. repeat split; auto. rewrite Hbl. destruct bl'; discriminate.
Qed.

End Signal.

(** ** Every way [run] can end *)

Section Outcomes.

Import EMACrossTestingOnly.

Variable op_data : gmap string DataFrame.
Variable req_data : list DataFrame.
Variables timeframe symbol exchange : string.
Variable log : list string.
Variable df : DataFrame.

Hypothesis Hop : timeframe ∈ operating_timeframes.
Hypothesis Hdf : op_data !! timeframe = Some df.

Lemma select_trigger_outcome (features : list feature) (longs shorts : candidates) :
  (exists o, select_trigger op_data timeframe symbol exchange features longs shorts
             = Ok o)
  \/ select_trigger op_data timeframe symbol exchange features longs shorts
     = Raise IndexError.
Proof.
  unfold select_trigger, make_signal, getitem. rewrite Hdf.
  repeat match goal with
  | |- context [py_index ?l ?k] =>
      destruct (py_index_outcome l k) as [(? & -> & _)| ->];
      cbv beta iota delta [bind]
  | |- context [if ?b then _ else _] => destruct b
  end;
  solve [left; eexists; reflexivity | right; reflexivity].
Qed.

(** With two bars or more, [run] returns, raises [TypeError] or exits. *)
Lemma run_outcome_two_or_more :
  (2 <= length df)%nat ->
  (exists o, run op_data req_data timeframe symbol exchange log =
             (Ok o, logged name timeframe log))
  \/ run op_data req_data timeframe symbol exchange log =
     (Raise TypeError, logged name timeframe log)
  \/ run op_data req_data timeframe symbol exchange log =
     (SystemExit 0, logged name timeframe log).
Proof.
  intros Hlen. pose proof (zip_features_length df) as Hfl.
  destruct (scan_crosses_outcome (zip_features df) (length df))
    as [[[longs shorts] Hscan]|Hscan]; try lia.
  - rewrite (run_after_scan op_data req_data timeframe symbol exchange log df
               longs shorts Hop Hdf Hscan).
    destruct ((0 <? Z.of_nat (length (time longs)))
              || (0 <? Z.of_nat (length (time shorts)))); [|left; eauto].
    destruct (select_trigger_outcome (zip_features df) longs shorts)
      as [[o ->]| ->]; simpl; [left; eauto|].
    right; right. unfold on_IndexError.
    destruct (py_index_in_range (zip_features df) (-1)) as (f & -> & _); [lia|].
    reflexivity.
  - right; left.
    apply (run_scan_raises op_data req_data timeframe symbol exchange log df);
      assumption.
Qed.

(** A single bar: the scan reads index [-2]. *)
Lemma run_one_bar (b : Bar) :
  df = [b] ->
  run op_data req_data timeframe symbol exchange log =
    (Raise IndexError, logged name timeframe log).
Proof.
  intros ->.
  apply (run_scan_raises op_data req_data timeframe symbol exchange log [b]);
    auto.
Qed.

End Outcomes.

Lemma NoDup_fmap_eq {A B : Type} (f : A -> B) (l : list A) (x y : A) :
  NoDup (map f l) -> x ∈ l -> y ∈ l -> f x = f y -> x = y.
Proof.
  induction l as [|a l IH]; simpl; intros Hnd Hx Hy Hf.
  - apply elem_of_nil in Hx. contradiction.
  - apply NoDup_cons in Hnd as [Ha Hnd].
    apply elem_of_cons in Hx as [->|Hx]; apply elem_of_cons in Hy as [->|Hy]; auto.
    + exfalso. apply Ha. rewrite Hf. apply (list_elem_of_fmap_2 f). exact Hy.
    + exfalso. apply Ha. rewrite <- Hf. apply (list_elem_of_fmap_2 f). exact Hx.
Qed.

(** ** Properties of [EMACrossTestingOnly.run] beyond the claims *)

(** *** One mark per bar *)

Lemma marked_snoc (m x : mark) (marks : list mark) (df : list Bar) (b : Bar) :
  length marks = length df ->
  marked m (marks ++ [x]) (df ++ [b]) =
    marked m marks df ++ (if mark_eqb x m then [b] else []).
Proof.
  revert df. induction marks as [|y marks IH]; intros [|b' df] Hlen;
    try discriminate; simpl.
  - destruct (mark_eqb x m); reflexivity.
  - injection Hlen as Hlen. rewrite (IH df Hlen).
    destruct (mark_eqb y m); reflexivity.
Qed.

Lemma marked_sublist (m : mark) (marks : list mark) (df : list Bar) :
  marked m marks df `sublist_of` df.
Proof.
  revert df. induction marks as [|x marks IH]; intros [|b df]; simpl;
    try apply sublist_nil_l.
  destruct (mark_eqb x m); [apply sublist_skip|apply sublist_cons]; apply IH.
Qed.

Lemma marked_length (marks : list mark) (df : list Bar) :
  (length (marked LongCross marks df) + length (marked ShortCross marks df)
   <= length df)%nat.
Proof.
  revert df. induction marks as [|x marks IH]; intros [|b df]; simpl; try lia.
  specialize (IH df). destruct x; simpl; lia.
Qed.

(** After the first [k] checks each of the first [k] bars carries one
    mark, and the two sets are the long-marked and the short-marked bars. *)
Lemma scan_crosses_marks (df : DataFrame) (k : nat)
  (longs shorts : EMACrossTestingOnly.candidates) :
  (k <= length df)%nat ->
  EMACrossTestingOnly.scan_crosses (EMACrossTestingOnly.zip_features df) k
    = Ok (longs, shorts) ->
  exists marks : list mark,
    length marks = k
    /\ longs = candidates_of (marked LongCross marks (take k df))
    /\ shorts = candidates_of (marked ShortCross marks (take k df)).
Proof.
  revert longs shorts. induction k as [|k IH]; intros longs shorts Hk Hscan.
  - exists []. unfold EMACrossTestingOnly.scan_crosses in Hscan. simpl in Hscan.
    assert (longs = EMACrossTestingOnly.no_candidates
            /\ shorts = EMACrossTestingOnly.no_candidates) as [-> ->]
      by (split; congruence).
    auto.
  - rewrite scan_crosses_S in Hscan.
    apply bind_Ok_inv in Hscan as ([l0 s0] & Hscan0 & Hstep).
    destruct (IH l0 s0) as (marks & Hlen & -> & ->); [lia|auto|].
    destruct (lookup_lt_is_Some_2 df k) as (b & Hb); [lia|].
    rewrite (take_S_r df k b Hb).
    assert (Hlen' : length marks = length (take k df))
      by (rewrite length_take; lia).
    destruct (check_cross_step _ _ _ _ _ _ _ _ _ (zip_features_lookup df k b Hb)
                Hstep) as [H|[H|H]]; injection H as -> ->.
    + exists (marks ++ [NoCross]). rewrite !marked_snoc by exact Hlen'.
      simpl. rewrite !app_nil_r, length_app. simpl. repeat split; auto. lia.
    + exists (marks ++ [LongCross]). rewrite !marked_snoc by exact Hlen'.
      simpl. rewrite app_nil_r, record_cross_candidates_of, length_app. simpl.
      repeat split; auto. lia.
    + exists (marks ++ [ShortCross]). rewrite !marked_snoc by exact Hlen'.
      simpl. rewrite app_nil_r, record_cross_candidates_of, length_app. simpl.
      repeat split; auto. lia.
Qed.

(** X1.  Whatever the scan returns, it has given each bar of the series
    one mark (no cross, long or short), so that no bar is recorded in both
    sets: the long set lists the opens and timestamps of the long-marked
    bars and the short set those of the short-marked bars, paired and in
    series order, and the two sets together never hold more entries than
    the series has bars. *)
Theorem scan_records_bars_in_order
  (df : DataFrame) (longs shorts : EMACrossTestingOnly.candidates) :
  EMACrossTestingOnly.scan_crosses (EMACrossTestingOnly.zip_features df)
    (length df) = Ok (longs, shorts) ->
  exists marks : list mark,
    length marks = length df
    /\ longs = candidates_of (marked LongCross marks df)
    /\ shorts = candidates_of (marked ShortCross marks df)
    /\ marked LongCross marks df `sublist_of` df
    /\ marked ShortCross marks df `sublist_of` df
    /\ (length (marked LongCross marks df) + length (marked ShortCross marks df)
        <= length df)%nat.
Proof.
  intros Hscan.
  destruct (scan_crosses_marks df (length df) longs shorts (le_n _) Hscan)
    as (marks & Hlen & Hl & Hs).
  rewrite take_ge in Hl, Hs by lia.
  exists marks. repeat split; auto using marked_sublist, marked_length.
Qed.

Lemma scan_records_bars_in_order_witness :
  exists marks : list mark,
    length marks = length long_then_short_series
    /\ EMACrossTestingOnly.mkCandidates [102%float] [180]
       = candidates_of (marked LongCross marks long_then_short_series)
    /\ EMACrossTestingOnly.mkCandidates [104%float] [300]
       = candidates_of (marked ShortCross marks long_then_short_series)
    /\ marked LongCross marks long_then_short_series
         `sublist_of` long_then_short_series
    /\ marked ShortCross marks long_then_short_series
         `sublist_of` long_then_short_series
    /\ (length (marked LongCross marks long_then_short_series)
        + length (marked ShortCross marks long_then_short_series)
        <= length long_then_short_series)%nat.
Proof.
  apply (scan_records_bars_in_order long_then_short_series
           (EMACrossTestingOnly.mkCandidates [102%float] [180])
           (EMACrossTestingOnly.mkCandidates [104%float] [300])).
  reflexivity.
Defined.

(** X2.  A signal is only ever returned for the final bar: its entry
    timestamp is the timestamp of the last bar of the series, its entry
    price is the open of a recorded bar with that timestamp (the last bar
    itself when timestamps are distinct), its only target, at 100 percent,
    is entry + entry * 0.005 for LONG and entry - entry * 0.005 for SHORT
    as the machine computes them in binary64, it carries no stop, and its
    snapshot is the series. *)
Theorem run_signal_enters_at_final_bar
  (op_data : gmap string DataFrame) (req_data : list DataFrame)
  (timeframe symbol exchange : string) (log log' : list string)
  (sig : SignalEvent) :
  EMACrossTestingOnly.run op_data req_data timeframe symbol exchange log =
    (Ok (Some sig), log') ->
  exists (df pre : DataFrame) (last b : Bar) (direction : string) (tp : float),
    op_data !! timeframe = Some df
    /\ df = pre ++ [last]
    /\ b ∈ df /\ index b = index last
    /\ (NoDup (map index df) -> b = last)
    /\ sig = mkSignalEvent symbol (index last) direction timeframe
               EMACrossTestingOnly.name exchange (open b) "Market"
               [(tp, 100)] None None false None df
    /\ (direction = "LONG" /\ tp = (open b + open b * 0x1.47ae147ae147bp-8)%float
        \/ direction = "SHORT" /\ tp = (open b - open b * 0x1.47ae147ae147bp-8)%float).
Proof.
  unfold EMACrossTestingOnly.run. intros [= Hres _].
  destruct (bool_decide (timeframe ∈ EMACrossTestingOnly.operating_timeframes));
    [|discriminate].
  unfold getitem at 1 in Hres.
  destruct (op_data !! timeframe) as [df|] eqn:Hdf; [|discriminate].
  cbv beta iota delta [bind] in Hres.
  destruct (EMACrossTestingOnly.scan_crosses _ _) as [[longs shorts]| |] eqn:Hscan;
    try discriminate.
  destruct (scan_crosses_prefix df (length df) longs shorts (le_n _) Hscan)
    as (bl & bs & -> & -> & Hbl & Hbs & _).
  rewrite take_ge in Hbl, Hbs by lia.
  destruct (_ || _); [|discriminate].
  destruct (EMACrossTestingOnly.select_trigger _ _ _ _ _ _ _) as [o|e|c] eqn:Hsel;
    simpl in Hres; try discriminate.
  - injection Hres as ->.
    destruct (select_trigger_signal op_data timeframe symbol exchange df bl bs sig
                Hdf Hsel)
      as (pre & last & b & direction & tp & Hpre & Hb & Hidx & Hsig & Hdir).
    assert (Hin : b ∈ df).
    { destruct Hb as [Hb|Hb]; eauto using elem_of_sublist. }
    exists df, pre, last, b, direction, tp. repeat split; auto.
    + intros Hnd. apply (NoDup_fmap_eq index df); auto.
      rewrite Hpre. apply elem_of_app. right. apply list_elem_of_singleton.
      reflexivity.
    + destruct Hdir as [(-> & _ & ->)|(-> & _ & _ & ->)]; auto.
  - destruct e; try discriminate.
    exfalso. exact (on_IndexError_not_Ok _ _ Hres).
Qed.

Lemma run_signal_enters_at_final_bar_witness :
  exists (df pre : DataFrame) (last b : Bar) (direction : string) (tp : float),
    one_minute long_then_short_series !! "1Min" = Some df
    /\ df = pre ++ [last]
    /\ b ∈ df /\ index b = index last
    /\ (NoDup (map index df) -> b = last)
    /\ mkSignalEvent "XBTUSD" 300 "SHORT" "1Min" EMACrossTestingOnly.name
         "BitMEX" 104 "Market" [((104 - 104 * 0x1.47ae147ae147bp-8)%float, 100)]
         None None false None long_then_short_series
       = mkSignalEvent "XBTUSD" (index last) direction "1Min"
           EMACrossTestingOnly.name "BitMEX" (open b) "Market"
           [(tp, 100)] None None false None df
    /\ (direction = "LONG" /\ tp = (open b + open b * 0x1.47ae147ae147bp-8)%float
        \/ direction = "SHORT" /\ tp = (open b - open b * 0x1.47ae147ae147bp-8)%float).
Proof.
  apply (run_signal_enters_at_final_bar (one_minute long_then_short_series) []
           "1Min" "XBTUSD" "BitMEX" []
           (logged EMACrossTestingOnly.name "1Min" [])).
  reflexivity.
Defined.

(** ** The decision [run] takes from the two candidate sets *)

Section Decision.

Import EMACrossTestingOnly.

Variable op_data : gmap string DataFrame.
Variable req_data : list DataFrame.
Variables timeframe symbol exchange : string.
Variable log : list string.
Variable df : DataFrame.
Variables longs shorts : candidates.

Hypothesis Hop : timeframe ∈ operating_timeframes.
Hypothesis Hdf : op_data !! timeframe = Some df.
Hypothesis Hscan : scan_crosses (zip_features df) (length df) = Ok (longs, shorts).

(** [run] as a function of the last entries of the two sets and of the
    last timestamp of the series. *)
Lemma run_decision :
  run op_data req_data timeframe symbol exchange log =
  (match last (time longs), last (time shorts), last (price longs),
         last (price shorts), index <$> last df with
   | None, None, _, _, _ => Ok None
   | Some tl, _, Some pl, _, Some final =>
       if final =? tl then
         Ok (Some (mkSignalEvent symbol tl "LONG" timeframe name exchange pl
                     "Market" [((pl + pl * 0x1.47ae147ae147bp-8)%float, 100)]
                     None None false None df))
       else
         match last (time shorts), last (price shorts) with
         | Some ts, Some ps =>
             if final =? ts then
               Ok (Some (mkSignalEvent symbol ts "SHORT" timeframe name exchange
                           ps "Market" [((ps - ps * 0x1.47ae147ae147bp-8)%float, 100)]
                           None None false None df))
             else Ok None
         | _, _ => SystemExit 0
         end
   | _, _, _, _, _ => SystemExit 0
   end,
   logged name timeframe log).
Proof.
  rewrite (run_after_scan op_data req_data timeframe symbol exchange log df
             longs shorts Hop Hdf Hscan).
  destruct (scan_crosses_prefix df (length df) longs shorts (le_n _) Hscan)
    as (bl & bs & -> & -> & Hbl & Hbs & _).
  rewrite take_ge in Hbl, Hbs by lia.
  unfold candidates_of. cbn [time price].
  destruct df as [|lb pre _] using rev_ind.
  { apply sublist_nil_r in Hbl, Hbs. subst. reflexivity. }
  rewrite last_snoc. cbn [fmap option_fmap option_map].
  unfold zip_features at 1 2. rewrite !map_app. simpl map at 2 4.
  unfold select_trigger, on_IndexError. cbn [time price].
  rewrite !py_index_last. cbv beta iota delta [bind feature_time].
  destruct bl as [|b bl' _] using rev_ind; destruct bs as [|b' bs' _] using rev_ind;
    rewrite ?map_app; simpl map; rewrite ?last_snoc, ?length_app; simpl length;
    rewrite ?py_index_last, ?py_index_empty;
    repeat match goal with
    | |- context [0 <? Z.of_nat (?n + 1)] =>
        replace (0 <? Z.of_nat (n + 1)) with true
          by (symmetry; apply Z.ltb_lt; lia)
    end;
    cbv beta iota delta [bind orb try_except_IndexError];
    unfold make_signal, getitem; rewrite ?Hdf;
    try reflexivity.
  - destruct (index lb =? index b); reflexivity.
  - destruct (index lb =? index b); [reflexivity|].
    destruct (index lb =? index b'); reflexivity.
Qed.

End Decision.

(** The shapes the scan result and the series can take together. *)
Lemma scan_result_shapes (df : DataFrame)
  (longs shorts : EMACrossTestingOnly.candidates) :
  EMACrossTestingOnly.scan_crosses (EMACrossTestingOnly.zip_features df)
    (length df) = Ok (longs, shorts) ->
  (longs = candidates_of [] /\ shorts = candidates_of [])
  \/ exists pre lb, df = pre ++ [lb]
     /\ ((exists bs' b', longs = candidates_of [] /\ shorts = candidates_of (bs' ++ [b']))
         \/ (exists bl' b, longs = candidates_of (bl' ++ [b]) /\ shorts = candidates_of [])
         \/ (exists bl' b bs' b', longs = candidates_of (bl' ++ [b])
                                  /\ shorts = candidates_of (bs' ++ [b']))).
Proof.
  intros Hscan.
  destruct (scan_crosses_prefix df (length df) longs shorts (le_n _) Hscan)
    as (bl & bs & -> & -> & Hbl & Hbs & _).
  rewrite take_ge in Hbl, Hbs by lia.
  destruct df as [|lb pre _] using rev_ind.
  { apply sublist_nil_r in Hbl, Hbs. subst. auto. }
  destruct bl as [|b bl' _] using rev_ind; destruct bs as [|b' bs' _] using rev_ind;
    [left; auto|right; exists pre, lb; split; auto..].
  - left. eauto.
  - right. left. eauto.
  - right. right. eauto 10.
Qed.

Ltac decide_run Hop Hdf Hscan :=
  rewrite (run_decision _ _ _ _ _ _ _ _ _ Hop Hdf Hscan);
  destruct (scan_result_shapes _ _ _ Hscan)
    as [[-> ->]|(pre & lb & -> &
                 [(bs' & b' & -> & ->)|[(bl' & b & -> & ->)|
                  (bl' & b & bs' & b' & -> & ->)]])];
  unfold candidates_of; cbn [EMACrossTestingOnly.time EMACrossTestingOnly.price];
  rewrite ?map_app; simpl map; rewrite ?last_snoc;
  cbn [fmap option_fmap option_map last].

(** X3.  Once the scan has returned, [run] leaves through [sys.exit(0)]
    exactly when one candidate set is empty, the other is not, and the
    final bar is not the latest long: no long recorded but a short, or a
    long recorded that is not the final bar and no short. *)
Theorem run_exits_iff_one_set_empty
  (op_data : gmap string DataFrame) (req_data : list DataFrame)
  (timeframe symbol exchange : string) (log : list string) (df : DataFrame)
  (longs shorts : EMACrossTestingOnly.candidates) :
  timeframe ∈ EMACrossTestingOnly.operating_timeframes ->
  op_data !! timeframe = Some df ->
  EMACrossTestingOnly.scan_crosses (EMACrossTestingOnly.zip_features df)
    (length df) = Ok (longs, shorts) ->
  EMACrossTestingOnly.run op_data req_data timeframe symbol exchange log =
    (SystemExit 0, logged EMACrossTestingOnly.name timeframe log)
  <-> (EMACrossTestingOnly.time longs = []
       /\ EMACrossTestingOnly.time shorts <> [])
      \/ (EMACrossTestingOnly.time shorts = []
          /\ EMACrossTestingOnly.time longs <> []
          /\ last (EMACrossTestingOnly.time longs) <> index <$> last df).
Proof.
  intros Hop Hdf Hscan. decide_run Hop Hdf Hscan.
  - split; [discriminate|]. intros [[_ H]|(_ & H & _)]; congruence.
  - split; [intros _; left; split; [reflexivity|]|reflexivity].
    destruct (map index bs'); discriminate.
  - destruct (index lb =? index b) eqn:E.
    + apply Z.eqb_eq in E. split; [discriminate|].
      intros [[H _]|(_ & _ & H)]; [destruct (map index bl'); discriminate|].
      congruence.
    + apply Z.eqb_neq in E. split; [|reflexivity]. intros _. right.
      repeat split; [destruct (map index bl'); discriminate|congruence].
  - destruct (index lb =? index b); [|destruct (index lb =? index b')];
      (split; [discriminate|]);
      (intros [[H _]|(H & _)];
       [destruct (map index bl'); discriminate
       |destruct (map index bs'); discriminate]).
Qed.

Lemma run_exits_iff_one_set_empty_witness :
  EMACrossTestingOnly.run (one_minute short_cross_series) [] "1Min" "XBTUSD"
    "BitMEX" [] =
    (SystemExit 0, logged EMACrossTestingOnly.name "1Min" [])
  <-> (EMACrossTestingOnly.time EMACrossTestingOnly.no_candidates = []
       /\ EMACrossTestingOnly.time
            (EMACrossTestingOnly.mkCandidates [102%float] [180]) <> [])
      \/ (EMACrossTestingOnly.time
            (EMACrossTestingOnly.mkCandidates [102%float] [180]) = []
          /\ EMACrossTestingOnly.time EMACrossTestingOnly.no_candidates <> []
          /\ last (EMACrossTestingOnly.time EMACrossTestingOnly.no_candidates)
             <> index <$> last short_cross_series).
Proof.
  apply (run_exits_iff_one_set_empty (one_minute short_cross_series) [] "1Min"
           "XBTUSD" "BitMEX" [] short_cross_series
           EMACrossTestingOnly.no_candidates
           (EMACrossTestingOnly.mkCandidates [102%float] [180])).
  - apply (bool_decide_unpack _). vm_compute. exact I.
  - reflexivity.
  - reflexivity.
Defined.

(** X4.  Once the scan has returned, [run] returns a LONG signal exactly
    when the final bar is the latest long recorded, and a SHORT signal
    exactly when a long has been recorded, the final bar is not the latest
    long, and it is the latest short: a short cross at the final bar is
    only reported if some long cross was recorded before. *)
Theorem run_direction_iff
  (op_data : gmap string DataFrame) (req_data : list DataFrame)
  (timeframe symbol exchange : string) (log : list string) (df : DataFrame)
  (longs shorts : EMACrossTestingOnly.candidates) :
  timeframe ∈ EMACrossTestingOnly.operating_timeframes ->
  op_data !! timeframe = Some df ->
  EMACrossTestingOnly.scan_crosses (EMACrossTestingOnly.zip_features df)
    (length df) = Ok (longs, shorts) ->
  ((exists sig,
      EMACrossTestingOnly.run op_data req_data timeframe symbol exchange log =
        (Ok (Some sig), logged EMACrossTestingOnly.name timeframe log)
      /\ direction sig = "LONG")
   <-> EMACrossTestingOnly.time longs <> []
       /\ last (EMACrossTestingOnly.time longs) = index <$> last df)
  /\ ((exists sig,
         EMACrossTestingOnly.run op_data req_data timeframe symbol exchange log =
           (Ok (Some sig), logged EMACrossTestingOnly.name timeframe log)
         /\ direction sig = "SHORT")
      <-> EMACrossTestingOnly.time longs <> []
          /\ last (EMACrossTestingOnly.time longs) <> index <$> last df
          /\ last (EMACrossTestingOnly.time shorts) = index <$> last df).
Proof.
  intros Hop Hdf Hscan. decide_run Hop Hdf Hscan.
  - split; (split; [intros (sig & H & _); discriminate|]).
    + intros [H _]. congruence.
    + intros (H & _). congruence.
  - split; (split; [intros (sig & H & _); discriminate|]).
    + intros [H _]. congruence.
    + intros (H & _). congruence.
  - destruct (index lb =? index b) eqn:E.
    + apply Z.eqb_eq in E. split; split.
      * intros _. split; [destruct (map index bl'); discriminate|congruence].
      * intros _. eexists. split; reflexivity.
      * intros (sig & [= <-] & H). discriminate.
      * intros (_ & H & _). congruence.
    + apply Z.eqb_neq in E. split; (split; [intros (sig & H & _); discriminate|]).
      * intros [_ H]. congruence.
      * intros (_ & _ & H). discriminate.
  - destruct (index lb =? index b) eqn:E.
    + apply Z.eqb_eq in E. split; split.
      * intros _. split; [destruct (map index bl'); discriminate|congruence].
      * intros _. eexists. split; reflexivity.
      * intros (sig & [= <-] & H). discriminate.
      * intros (_ & H & _). congruence.
    + apply Z.eqb_neq in E. destruct (index lb =? index b') eqn:E'.
      * apply Z.eqb_eq in E'. split; split.
        -- intros (sig & [= <-] & H). discriminate.
        -- intros [_ H]. congruence.
        -- intros _.
           repeat split; [destruct (map index bl'); discriminate|congruence..].
        -- intros _. eexists. split; reflexivity.
      * apply Z.eqb_neq in E'.
        split; (split; [intros (sig & H & _); discriminate|]).
        -- intros [_ H]. congruence.
        -- intros (_ & _ & H). congruence.
Qed.

(** X5.  Once the scan has returned, [run] returns [None] exactly when
    nothing was recorded, or when both sets hold entries and the final bar
    is neither the latest long nor the latest short. *)
Theorem run_returns_None_iff
  (op_data : gmap string DataFrame) (req_data : list DataFrame)
  (timeframe symbol exchange : string) (log : list string) (df : DataFrame)
  (longs shorts : EMACrossTestingOnly.candidates) :
  timeframe ∈ EMACrossTestingOnly.operating_timeframes ->
  op_data !! timeframe = Some df ->
  EMACrossTestingOnly.scan_crosses (EMACrossTestingOnly.zip_features df)
    (length df) = Ok (longs, shorts) ->
  EMACrossTestingOnly.run op_data req_data timeframe symbol exchange log =
    (Ok None, logged EMACrossTestingOnly.name timeframe log)
  <-> (EMACrossTestingOnly.time longs = []
       /\ EMACrossTestingOnly.time shorts = [])
      \/ (EMACrossTestingOnly.time longs <> []
          /\ EMACrossTestingOnly.time shorts <> []
          /\ last (EMACrossTestingOnly.time longs) <> index <$> last df
          /\ last (EMACrossTestingOnly.time shorts) <> index <$> last df).
Proof.
  intros Hop Hdf Hscan. decide_run Hop Hdf Hscan.
  - split; auto.
  - split; [discriminate|].
    intros [[_ H]|(H & _)]; [destruct (map index bs'); discriminate|congruence].
  - destruct (index lb =? index b); (split; [discriminate|]);
      (intros [[H _]|(_ & H & _)];
       [destruct (map index bl'); discriminate|congruence]).
  - destruct (index lb =? index b) eqn:E.
    + apply Z.eqb_eq in E. split; [discriminate|].
      intros [[H _]|(_ & _ & H & _)];
        [destruct (map index bl'); discriminate|congruence].
    + apply Z.eqb_neq in E. destruct (index lb =? index b') eqn:E'.
      * apply Z.eqb_eq in E'. split; [discriminate|].
        intros [[H _]|(_ & _ & _ & H)];
          [destruct (map index bl'); discriminate|congruence].
      * apply Z.eqb_neq in E'. split; [|reflexivity]. intros _. right.
        repeat split;
          [destruct (map index bl'); discriminate
          |destruct (map index bs'); discriminate
          |congruence..].
Qed.

Lemma run_direction_iff_witness :
  ((exists sig,
      EMACrossTestingOnly.run (one_minute long_then_short_series) [] "1Min"
        "XBTUSD" "BitMEX" [] =
        (Ok (Some sig), logged EMACrossTestingOnly.name "1Min" [])
      /\ direction sig = "LONG")
   <-> EMACrossTestingOnly.time (EMACrossTestingOnly.mkCandidates [102%float] [180]) <> []
       /\ last (EMACrossTestingOnly.time
                  (EMACrossTestingOnly.mkCandidates [102%float] [180]))
          = index <$> last long_then_short_series)
  /\ ((exists sig,
         EMACrossTestingOnly.run (one_minute long_then_short_series) [] "1Min"
           "XBTUSD" "BitMEX" [] =
           (Ok (Some sig), logged EMACrossTestingOnly.name "1Min" [])
         /\ direction sig = "SHORT")
      <-> EMACrossTestingOnly.time (EMACrossTestingOnly.mkCandidates [102%float] [180]) <> []
          /\ last (EMACrossTestingOnly.time
                     (EMACrossTestingOnly.mkCandidates [102%float] [180]))
             <> index <$> last long_then_short_series
          /\ last (EMACrossTestingOnly.time
                     (EMACrossTestingOnly.mkCandidates [104%float] [300]))
             = index <$> last long_then_short_series).
Proof.
  apply (run_direction_iff (one_minute long_then_short_series) [] "1Min"
           "XBTUSD" "BitMEX" [] long_then_short_series
           (EMACrossTestingOnly.mkCandidates [102%float] [180])
           (EMACrossTestingOnly.mkCandidates [104%float] [300])).
  - apply (bool_decide_unpack _). vm_compute. exact I.
  - reflexivity.
  - reflexivity.
Defined.

Lemma run_returns_None_iff_witness :
  EMACrossTestingOnly.run (one_minute settled_long_series) [] "1Min" "XBTUSD"
    "BitMEX" [] = (Ok None, logged EMACrossTestingOnly.name "1Min" [])
  <-> (EMACrossTestingOnly.time (EMACrossTestingOnly.mkCandidates [102%float] [180]) = []
       /\ EMACrossTestingOnly.time (EMACrossTestingOnly.mkCandidates [100%float] [60]) = [])
      \/ (EMACrossTestingOnly.time (EMACrossTestingOnly.mkCandidates [102%float] [180]) <> []
          /\ EMACrossTestingOnly.time (EMACrossTestingOnly.mkCandidates [100%float] [60]) <> []
          /\ last (EMACrossTestingOnly.time
                     (EMACrossTestingOnly.mkCandidates [102%float] [180]))
             <> index <$> last settled_long_series
          /\ last (EMACrossTestingOnly.time
                     (EMACrossTestingOnly.mkCandidates [100%float] [60]))
             <> index <$> last settled_long_series).
Proof.
  apply (run_returns_None_iff (one_minute settled_long_series) [] "1Min"
           "XBTUSD" "BitMEX" [] settled_long_series
           (EMACrossTestingOnly.mkCandidates [102%float] [180])
           (EMACrossTestingOnly.mkCandidates [100%float] [60])).
  - apply (bool_decide_unpack _). vm_compute. exact I.
  - reflexivity.
  - reflexivity.
Defined.

(** X6.  For an operating timeframe whose series is supplied, [run] lets
    an [IndexError] escape exactly when the series has one bar: with no
    bar the loop does not run, with two or more every index the scan
    reads wraps around inside the series and an [IndexError] of the
    trigger selection is caught. *)
Theorem run_raises_IndexError_iff_one_bar
  (op_data : gmap string DataFrame) (req_data : list DataFrame)
  (timeframe symbol exchange : string) (log : list string) (df : DataFrame) :
  timeframe ∈ EMACrossTestingOnly.operating_timeframes ->
  op_data !! timeframe = Some df ->
  EMACrossTestingOnly.run op_data req_data timeframe symbol exchange log =
    (Raise IndexError, logged EMACrossTestingOnly.name timeframe log)
  <-> length df = 1%nat.
Proof.
  intros Hop Hdf. split.
  - intros Hrun. destruct df as [|b0 [|b1 df']]; [|reflexivity|].
    + rewrite (run_empty_series op_data req_data timeframe symbol exchange log
                 Hop Hdf) in Hrun. discriminate.
    + destruct (run_outcome_two_or_more op_data req_data timeframe symbol
                  exchange log (b0 :: b1 :: df') Hop Hdf)
        as [[o H]|[H|H]]; [simpl; lia|..]; rewrite H in Hrun; discriminate.
  - intros Hlen. destruct df as [|b [|b1 df']]; try discriminate.
    apply (run_one_bar op_data req_data timeframe symbol exchange log [b] Hop Hdf b).
    reflexivity.
Qed.

Lemma run_raises_IndexError_iff_one_bar_witness :
  EMACrossTestingOnly.run (one_minute [bar 60 100 1 2]) [] "1Min" "XBTUSD"
    "BitMEX" [] = (Raise IndexError, logged EMACrossTestingOnly.name "1Min" [])
  <-> length [bar 60 100 1 2] = 1%nat.
Proof.
  apply (run_raises_IndexError_iff_one_bar (one_minute [bar 60 100 1 2]) []
           "1Min" "XBTUSD" "BitMEX" [] [bar 60 100 1 2]).
  - apply (bool_decide_unpack _). vm_compute. exact I.
  - reflexivity.
Defined.

(** X7.  On a series in which no indicator cell is [None] and which does
    not have exactly one bar, [run] raises nothing: it returns, or it
    leaves through [sys.exit(0)]. *)
Theorem run_without_None_returns_or_exits
  (op_data : gmap string DataFrame) (req_data : list DataFrame)
  (timeframe symbol exchange : string) (log : list string) (df : DataFrame) :
  timeframe ∈ EMACrossTestingOnly.operating_timeframes ->
  op_data !! timeframe = Some df ->
  no_None_cell df -> length df <> 1%nat ->
  (exists o, EMACrossTestingOnly.run op_data req_data timeframe symbol exchange log =
             (Ok o, logged EMACrossTestingOnly.name timeframe log))
  \/ EMACrossTestingOnly.run op_data req_data timeframe symbol exchange log =
     (SystemExit 0, logged EMACrossTestingOnly.name timeframe log).
Proof.
  intros Hop Hdf Hnone Hlen.
  destruct df as [|b0 [|b1 df']]; [|exfalso; apply Hlen; reflexivity|].
  - left. exists None. apply run_empty_series; assumption.
  - destruct (scan_crosses_total (b0 :: b1 :: df') Hnone)
      as (longs & shorts & Hscan); [simpl; lia|].
    rewrite (run_after_scan op_data req_data timeframe symbol exchange log
               (b0 :: b1 :: df') longs shorts Hop Hdf Hscan).
    destruct (_ || _); [|left; eauto].
    destruct (select_trigger_outcome op_data timeframe symbol exchange
                (b0 :: b1 :: df') Hdf
                (EMACrossTestingOnly.zip_features (b0 :: b1 :: df')) longs shorts)
      as [[o ->]| ->]; [left; eauto|right].
    unfold try_except_IndexError, EMACrossTestingOnly.on_IndexError.
    destruct (py_index_in_range
                (EMACrossTestingOnly.zip_features (b0 :: b1 :: df')) (-1))
      as (f & -> & _); [simpl; lia|reflexivity].
Qed.

Lemma run_without_None_returns_or_exits_witness :
  (exists o, EMACrossTestingOnly.run (one_minute stale_long_series) [] "1Min"
               "XBTUSD" "BitMEX" [] =
             (Ok o, logged EMACrossTestingOnly.name "1Min" []))
  \/ EMACrossTestingOnly.run (one_minute stale_long_series) [] "1Min"
       "XBTUSD" "BitMEX" [] =
     (SystemExit 0, logged EMACrossTestingOnly.name "1Min" []).
Proof.
  apply (run_without_None_returns_or_exits (one_minute stale_long_series) []
           "1Min" "XBTUSD" "BitMEX" [] stale_long_series).
  - apply (bool_decide_unpack _). vm_compute. exact I.
  - reflexivity.
  - repeat constructor; discriminate.
  - simpl. lia.
Defined.

(** X8.  For an operating timeframe that [op_data] does not hold, [run]
    raises [KeyError] after writing its log line. *)
Theorem run_missing_series_raises_KeyError
  (op_data : gmap string DataFrame) (req_data : list DataFrame)
  (timeframe symbol exchange : string) (log : list string) :
  timeframe ∈ EMACrossTestingOnly.operating_timeframes ->
  op_data !! timeframe = None ->
  EMACrossTestingOnly.run op_data req_data timeframe symbol exchange log =
    (Raise KeyError, logged EMACrossTestingOnly.name timeframe log).
Proof.
  intros Hop Hdf. unfold EMACrossTestingOnly.run.
  rewrite bool_decide_true by exact Hop.
  unfold getitem. rewrite Hdf. reflexivity.
Qed.

Lemma run_missing_series_raises_KeyError_witness :
  EMACrossTestingOnly.run {[ "5Min" := long_cross_series ]} [] "1Min" "XBTUSD"
    "BitMEX" [] = (Raise KeyError, logged EMACrossTestingOnly.name "1Min" []).
Proof.
  apply (run_missing_series_raises_KeyError {[ "5Min" := long_cross_series ]} []
           "1Min" "XBTUSD" "BitMEX" []).
  - apply (bool_decide_unpack _). vm_compute. exact I.
  - reflexivity.
Defined.

(** X9.  A series of no bar or of two bars never gives a signal: [run]
    returns [None], unless a comparison meets a [None] cell and raises
    [TypeError]; without [None] cells it returns [None]. *)
Theorem run_short_series_no_signal
  (op_data : gmap string DataFrame) (req_data : list DataFrame)
  (timeframe symbol exchange : string) (log : list string) (df : DataFrame) :
  timeframe ∈ EMACrossTestingOnly.operating_timeframes ->
  op_data !! timeframe = Some df ->
  length df = 0%nat \/ length df = 2%nat ->
  (EMACrossTestingOnly.run op_data req_data timeframe symbol exchange log =
     (Ok None, logged EMACrossTestingOnly.name timeframe log)
   \/ EMACrossTestingOnly.run op_data req_data timeframe symbol exchange log =
     (Raise TypeError, logged EMACrossTestingOnly.name timeframe log))
  /\ (no_None_cell df ->
      EMACrossTestingOnly.run op_data req_data timeframe symbol exchange log =
        (Ok None, logged EMACrossTestingOnly.name timeframe log)).
Proof.
  intros Hop Hdf Hlen.
  destruct df as [|b0 [|b1 [|b2 df']]]; try (destruct Hlen; discriminate).
  - pose proof (run_empty_series op_data req_data timeframe symbol exchange log
                  Hop Hdf) as H. auto.
  - pose proof (run_two_bars op_data req_data timeframe symbol exchange log
                  b0 b1 Hop Hdf) as H.
    split; [exact H|]. intros Hnone.
    destruct H as [H|H]; [exact H|exfalso].
    destruct (scan_crosses_total [b0; b1] Hnone) as (longs & shorts & Hscan);
      [simpl; lia|].
    unfold EMACrossTestingOnly.run in H.
    rewrite bool_decide_true in H by exact Hop.
    unfold getitem at 1 in H. rewrite Hdf in H.
    cbv beta iota delta [bind] in H. rewrite Hscan in H.
    destruct (_ || _); [|discriminate].
    destruct (select_trigger_outcome op_data timeframe symbol exchange
                [b0; b1] Hdf (EMACrossTestingOnly.zip_features [b0; b1])
                longs shorts) as [[o Ho]|Ho]; rewrite Ho in H; discriminate.
Qed.

Lemma run_short_series_no_signal_witness :
  (EMACrossTestingOnly.run (one_minute [bar 60 100 2 1; bar 120 101 1 2]) []
     "1Min" "XBTUSD" "BitMEX" [] =
     (Ok None, logged EMACrossTestingOnly.name "1Min" [])
   \/ EMACrossTestingOnly.run (one_minute [bar 60 100 2 1; bar 120 101 1 2]) []
        "1Min" "XBTUSD" "BitMEX" [] =
      (Raise TypeError, logged EMACrossTestingOnly.name "1Min" []))
  /\ (no_None_cell [bar 60 100 2 1; bar 120 101 1 2] ->
      EMACrossTestingOnly.run (one_minute [bar 60 100 2 1; bar 120 101 1 2]) []
        "1Min" "XBTUSD" "BitMEX" [] =
        (Ok None, logged EMACrossTestingOnly.name "1Min" [])).
Proof.
  apply (run_short_series_no_signal
           (one_minute [bar 60 100 2 1; bar 120 101 1 2]) [] "1Min" "XBTUSD"
           "BitMEX" [] [bar 60 100 2 1; bar 120 101 1 2]).
  - apply (bool_decide_unpack _). vm_compute. exact I.
  - reflexivity.
  - right. reflexivity.
Defined.

(** ** Wrapped indices at the start of the scan *)

Lemma py_index_before_last {A : Type} (l : list A) (x y : A) :
  py_index (l ++ [x; y]) (-2) = Ok x.
Proof.
  apply (py_index_neg (l ++ [x; y]) 2 x).
  - rewrite length_app. simpl. lia.
  - rewrite length_app. simpl.
    replace (length l + 2 - 2)%nat with (length l + 0)%nat by lia.
    rewrite lookup_app_r by lia.
    replace (length l + 0 - length l)%nat with 0%nat by lia. reflexivity.
Qed.

Section Wrap.

Import EMACrossTestingOnly.

Variable features : list feature.

(** A short cross at [i]: slow above fast at [i], below at [i-1] and
    [i-2]; the bar's open and timestamp join [shorts]. *)
Lemma check_cross_short (longs shorts : candidates) (i : Z)
  (t t1 t2 : Z) (o o1 o2 : float) (f0 s0 f1 s1 f2 s2 : Q) :
  py_index features i = Ok (t, o, Num f0, Num s0) ->
  py_index features (i - 1) = Ok (t1, o1, Num f1, Num s1) ->
  py_index features (i - 2) = Ok (t2, o2, Num f2, Num s2) ->
  (f0 < s0)%Q -> (s1 < f1)%Q -> (s2 < f2)%Q ->
  check_cross features (longs, shorts) i = Ok (longs, record_cross shorts o t).
Proof.
  intros H0 H1 H2 L0 L1 L2. unfold check_cross.
  rewrite H0, H1, H2. simpl. unfold py_gt, py_and. simpl.
  rewrite (Qltb_lt f0 s0 L0). simpl.
  rewrite (Qltb_lt s1 f1 L1). simpl.
  rewrite (Qltb_lt s2 f2 L2). reflexivity.
Qed.

(** The checks only ever append to the two sets. *)
Lemma for_each_check_cross_extends (l : list Z) (longs shorts longs' shorts' : candidates) :
  for_each (check_cross features) l (longs, shorts) = Ok (longs', shorts') ->
  (exists ps ts, price longs' = price longs ++ ps /\ time longs' = time longs ++ ts)
  /\ (exists ps ts, price shorts' = price shorts ++ ps
                    /\ time shorts' = time shorts ++ ts).
Proof.
  revert longs shorts. induction l as [|i l IH]; intros longs shorts;
    cbn [for_each].
  - intros [= <- <-]. split; exists [], []; rewrite !app_nil_r; auto.
  - intros H. apply bind_Ok_inv in H as ([l1 s1] & Hstep & Hrest).
    destruct (IH l1 s1 Hrest) as ((pl & tl & Hpl & Htl) & (ps & ts & Hps & Hts)).
    destruct (py_index features i) as [[[[t o] fast] slow]| |] eqn:Ei.
    2,3: unfold check_cross in Hstep; rewrite Ei in Hstep; discriminate.
    destruct (check_cross_step features longs shorts (l1, s1) i t o fast slow
                Ei Hstep) as [H|[H|H]]; injection H as -> ->.
    + split; eauto.
    + split; [|eauto]. exists ([o] ++ pl), ([t] ++ tl).
      rewrite Hpl, Htl. simpl. rewrite <- !app_assoc. auto.
    + split; [eauto|]. exists ([o] ++ ps), ([t] ++ ts).
      rewrite Hps, Hts. simpl. rewrite <- !app_assoc. auto.
Qed.

End Wrap.

(** X10.  The scan starts at the first bar and takes the final two bars
    of the series for the bars before it: when slow is above fast at the
    first bar and below fast at the final two bars, the first bar is
    recorded as a short cross, ahead of every other short. *)
Theorem scan_records_first_bar_against_final_bars
  (first p2 p1 : Bar) (mid : DataFrame) (f0 s0 f1 s1 f2 s2 : Q)
  (longs shorts : EMACrossTestingOnly.candidates) :
  EMA10 first = Num f0 -> EMA20 first = Num s0 ->
  EMA10 p1 = Num f1 -> EMA20 p1 = Num s1 ->
  EMA10 p2 = Num f2 -> EMA20 p2 = Num s2 ->
  (f0 < s0)%Q -> (s1 < f1)%Q -> (s2 < f2)%Q ->
  EMACrossTestingOnly.scan_crosses
    (EMACrossTestingOnly.zip_features (first :: mid ++ [p2; p1]))
    (length (first :: mid ++ [p2; p1])) = Ok (longs, shorts) ->
  exists ps ts,
    EMACrossTestingOnly.price shorts = open first :: ps
    /\ EMACrossTestingOnly.time shorts = index first :: ts.
Proof.
  intros E0 E0' E1 E1' E2 E2' L0 L1 L2 Hscan.
  set (df := first :: mid ++ [p2; p1]) in *.
  set (fs := EMACrossTestingOnly.zip_features df) in *.
  assert (Hfs : fs = ((index first, open first, Num f0, Num s0)
                      :: EMACrossTestingOnly.zip_features mid)
                     ++ [(index p2, open p2, Num f2, Num s2);
                         (index p1, open p1, Num f1, Num s1)]).
  { unfold fs, df, EMACrossTestingOnly.zip_features. simpl.
    rewrite map_app. simpl. rewrite E0, E0', E1, E1', E2, E2'. reflexivity. }
  change (EMACrossTestingOnly.scan_crosses fs (length df))
    with (ls <- EMACrossTestingOnly.check_cross fs
                  (EMACrossTestingOnly.no_candidates,
                   EMACrossTestingOnly.no_candidates) 0 ;;
          for_each (EMACrossTestingOnly.check_cross fs)
            (map Z.of_nat (seq 1 (length (mid ++ [p2; p1])))) ls) in Hscan.
  rewrite (check_cross_short fs _ _ 0 (index first) (index p1) (index p2)
             (open first) (open p1) (open p2) f0 s0 f1 s1 f2 s2) in Hscan; auto.
  - cbv beta iota delta [bind] in Hscan.
    apply for_each_check_cross_extends in Hscan as (_ & ps & ts & Hps & Hts).
    simpl in Hps, Hts. eauto.
  - rewrite Hfs. reflexivity.
  - rewrite Hfs.
    change [(index p2, open p2, Num f2, Num s2); (index p1, open p1, Num f1, Num s1)]
      with ([(index p2, open p2, Num f2, Num s2)]
            ++ [(index p1, open p1, Num f1, Num s1)]).
    rewrite app_assoc. apply py_index_last.
  - rewrite Hfs. apply py_index_before_last.
Qed.

Lemma scan_records_first_bar_against_final_bars_witness :
  exists ps ts,
    EMACrossTestingOnly.price (EMACrossTestingOnly.mkCandidates [100%float] [60])
      = open (bar 60 100 1 2) :: ps
    /\ EMACrossTestingOnly.time (EMACrossTestingOnly.mkCandidates [100%float] [60])
      = index (bar 60 100 1 2) :: ts.
Proof.
  apply (scan_records_first_bar_against_final_bars
           (bar 60 100 1 2) (bar 180 102 2 1) (bar 240 103 2 1)
           [bar 120 101 1 2] 1 2 2 1 2 1
           (EMACrossTestingOnly.mkCandidates [102%float] [180])
           (EMACrossTestingOnly.mkCandidates [100%float] [60]));
    reflexivity.
Defined.

(** ** Properties of [EQTrendFollowing.get_required_timeframes] beyond the
    claims *)

Section ResolverOutcomes.

Import EQTrendFollowing.

Lemma py_int_outcome (s : string) :
  (exists n, py_int s = Ok n) \/ py_int s = Raise ValueError.
Proof.
  unfold py_int. destruct s; [auto|].
  destruct (NilEmpty.uint_of_string _); eauto.
Qed.

(** The loop body returns, or raises [ValueError] or [IndexError]. *)
Lemma double_timeframe_outcome (T A : list string) (tf : string) :
  (exists A', double_timeframe T A tf = Ok A')
  \/ double_timeframe T A tf = Raise ValueError
  \/ double_timeframe T A tf = Raise IndexError.
Proof.
  unfold double_timeframe.
  repeat match goal with
  | |- context [if ?b then _ else _] => destruct b; eauto
  end.
  destruct (py_int_outcome (join_filter isdigit tf)) as [[n ->]| ->]; simpl; auto.
  destruct (py_index_outcome (findall_alpha tf) 0) as [(x & -> & _)| ->]; simpl;
    eauto.
Qed.

Lemma required_outcome (T l A : list string) :
  (exists A', for_each (double_timeframe T) l A = Ok A')
  \/ for_each (double_timeframe T) l A = Raise ValueError
  \/ for_each (double_timeframe T) l A = Raise IndexError.
Proof.
  revert A. induction l as [|tf l IH]; intros A; simpl; [eauto|].
  destruct (double_timeframe_outcome T A tf) as [[A' ->]|[-> | ->]]; simpl; auto.
Qed.

(** Each code queues at most one candidate; a code outside the table
    queues exactly one. *)
Lemma double_timeframe_length (T A A' : list string) (tf : string) :
  double_timeframe T A tf = Ok A' ->
  (length A' <= length A + 1)%nat
  /\ (in_explicit_table tf = false -> length A' = (length A + 1)%nat).
Proof.
  destruct (in_explicit_table tf) eqn:E.
  - destruct (in_explicit_table_true tf E) as (c & Hc).
    rewrite (double_timeframe_table T A tf c Hc). intros [= <-].
    split; [|discriminate]. unfold add_if_new.
    destruct (_ && _); [rewrite length_app; simpl|]; lia.
  - rewrite (double_timeframe_fallback T A tf E). intros H.
    apply bind_Ok_inv in H as (n & _ & H).
    apply bind_Ok_inv in H as (c & _ & [= <-]).
    rewrite length_app. simpl. split; [lia|reflexivity].
Qed.

Lemma required_loop_length (T l A A' : list string) :
  for_each (double_timeframe T) l A = Ok A' ->
  (length A' <= length A + length l)%nat
  /\ (Forall (fun tf => in_explicit_table tf = false) l ->
      length A' = (length A + length l)%nat).
Proof.
  revert A. induction l as [|tf l IH]; intros A; simpl.
  - intros [= <-]. split; [lia|intros _; lia].
  - intros H. apply bind_Ok_inv in H as (A1 & Hstep & Hrest).
    destruct (double_timeframe_length T A A1 tf Hstep) as [Hle Heq].
    destruct (IH A1 Hrest) as [Hle' Heq']. split; [lia|].
    intros Hall. apply Forall_cons in Hall as [Htf Hall].
    rewrite (Heq' Hall), (Heq Htf). lia.
Qed.

(** Codes made of digits only. *)
Lemma uint_of_string_of_digits (s : string) :
  string_forall isdigit s = true -> exists d, NilEmpty.uint_of_string s = Some d.
Proof.
  induction s as [|c s IH]; simpl; [eauto|].
  intros H. apply andb_prop in H as [Hc Hs].
  destruct (IH Hs) as (d & ->).
  destruct c as [[] [] [] [] [] [] [] []]; vm_compute in Hc; try discriminate;
    eexists; reflexivity.
Qed.

Lemma join_filter_digits (s : string) :
  string_forall isdigit s = true -> join_filter isdigit s = s.
Proof.
  induction s as [|c s IH]; simpl; [reflexivity|].
  intros H. apply andb_prop in H as [Hc Hs]. rewrite Hc, (IH Hs). reflexivity.
Qed.

Lemma findall_alpha_digits (s : string) :
  string_forall isdigit s = true -> findall_alpha s = [].
Proof.
  unfold findall_alpha. induction s as [|c s IH]; simpl; [reflexivity|].
  intros H. apply andb_prop in H as [Hc Hs].
  rewrite (isdigit_not_alpha c Hc). simpl. auto.
Qed.

Lemma digits_outside_table (s : string) :
  string_forall isdigit s = true -> in_explicit_table s = false.
Proof.
  intros H. unfold in_explicit_table. apply bool_decide_eq_false. intros Hin.
  unfold explicit_table in Hin. simpl in Hin.
  repeat (apply elem_of_cons in Hin as [->|Hin]; [vm_compute in H; discriminate|]).
  apply elem_of_nil in Hin. contradiction.
Qed.

End ResolverOutcomes.

Lemma get_required_timeframes_spec_inv (h h' : store) (t r : nat) (T : list string) :
  h !! t = Some T ->
  EQTrendFollowing.get_required_timeframes t true h = (Ok (Some r), h') ->
  exists A, EQTrendFollowing.required T = Ok A /\ h' !! r = Some A.
Proof.
  intros Ht. unfold EQTrendFollowing.get_required_timeframes.
  rewrite (lookup_total_correct _ _ _ Ht).
  destruct (EQTrendFollowing.required T) as [A| |]; try discriminate.
  simpl. intros [= <- <-]. exists A. split; [reflexivity|apply lookup_insert_eq].
Qed.

(** X11.  With [result=True] the list returned is a new object: whenever
    the call returns, it returns a reference unused before that holds the
    queued codes, the caller's list and every other list are as they
    were. *)
Theorem get_required_timeframes_returns_new_list
  (h h' : store) (t r : nat) (T : list string) :
  h !! t = Some T ->
  EQTrendFollowing.get_required_timeframes t true h = (Ok (Some r), h') ->
  exists A : list string,
    EQTrendFollowing.required T = Ok A
    /\ h !! r = None /\ h' !! r = Some A
    /\ h' !! t = Some T
    /\ (forall l, l <> r -> h' !! l = h !! l).
Proof.
  intros Ht. unfold EQTrendFollowing.get_required_timeframes.
  rewrite (lookup_total_correct _ _ _ Ht).
  destruct (EQTrendFollowing.required T) as [A| |]; try discriminate.
  simpl. intros [= <- <-]. exists A.
  assert (Hfresh : h !! fresh (dom h) = None).
  { apply not_elem_of_dom. apply is_fresh. }
  repeat split; auto.
  - apply lookup_insert_eq.
  - rewrite lookup_insert_ne; [exact Ht|]. intros E. rewrite E in Hfresh. congruence.
  - intros l Hl. apply lookup_insert_ne. congruence.
Qed.

Lemma get_required_timeframes_returns_new_list_witness :
  exists A : list string,
    EQTrendFollowing.required ["1H"; "2H"] = Ok A
    /\ ({[ 0%nat := ["1H"; "2H"] ]} : store) !! 1%nat = None
    /\ (<[1%nat := ["2H"; "4H"]]> {[ 0%nat := ["1H"; "2H"] ]} : store) !! 1%nat
       = Some A
    /\ (<[1%nat := ["2H"; "4H"]]> {[ 0%nat := ["1H"; "2H"] ]} : store) !! 0%nat
       = Some ["1H"; "2H"]
    /\ (forall l, l <> 1%nat ->
        (<[1%nat := ["2H"; "4H"]]> {[ 0%nat := ["1H"; "2H"] ]} : store) !! l
        = ({[ 0%nat := ["1H"; "2H"] ]} : store) !! l).
Proof.
  apply (get_required_timeframes_returns_new_list
           {[ 0%nat := ["1H"; "2H"] ]}
           (<[1%nat := ["2H"; "4H"]]> {[ 0%nat := ["1H"; "2H"] ]})
           0%nat 1%nat ["1H"; "2H"]); reflexivity.
Defined.

(** X12.  The two modes agree: whenever the call with [result=True]
    returns a list [A], the call with [result=False] on the same list [T]
    returns [None] and leaves [T ++ A] in place of [T], the codes of [T]
    first and in their order, every other list untouched. *)
Theorem get_required_timeframes_in_place_appends_result
  (h hT : store) (t r : nat) (T : list string) :
  h !! t = Some T ->
  EQTrendFollowing.get_required_timeframes t true h = (Ok (Some r), hT) ->
  exists A : list string,
    hT !! r = Some A
    /\ EQTrendFollowing.get_required_timeframes t false h =
         (Ok None, <[t := T ++ A]> h).
Proof.
  intros Ht Hres.
  destruct (get_required_timeframes_spec_inv h hT t r T Ht Hres) as (A & HA & HrA).
  exists A. split; [exact HrA|].
  rewrite (get_required_timeframes_spec t false h T A Ht HA). reflexivity.
Qed.

Lemma get_required_timeframes_in_place_appends_result_witness :
  exists A : list string,
    (<[1%nat := ["2H"; "4H"]]> {[ 0%nat := ["1H"; "2H"] ]} : store) !! 1%nat
      = Some A
    /\ EQTrendFollowing.get_required_timeframes 0 false
         {[ 0%nat := ["1H"; "2H"] ]} =
       (Ok None, <[0%nat := ["1H"; "2H"] ++ A]> {[ 0%nat := ["1H"; "2H"] ]}).
Proof.
  apply (get_required_timeframes_in_place_appends_result
           {[ 0%nat := ["1H"; "2H"] ]}
           (<[1%nat := ["2H"; "4H"]]> {[ 0%nat := ["1H"; "2H"] ]})
           0%nat 1%nat ["1H"; "2H"]); reflexivity.
Defined.

(** X13.  A call that does not return changes nothing: the store is as
    before (no code has been appended yet), and the exception is
    [ValueError] or [IndexError]; the call never leaves through
    [sys.exit]. *)
Theorem get_required_timeframes_failure_is_clean
  (h h' : store) (t : nat) (result : bool) (o : outcome (option nat)) :
  EQTrendFollowing.get_required_timeframes t result h = (o, h') ->
  (forall v, o <> Ok v) ->
  h' = h /\ (o = Raise ValueError \/ o = Raise IndexError).
Proof.
  unfold EQTrendFollowing.get_required_timeframes, EQTrendFollowing.required.
  destruct (required_outcome (h !!! t) (h !!! t) []) as [[A ->]|[-> | ->]].
  - destruct result; simpl; intros [= <- <-] Hno; exfalso; eapply Hno; reflexivity.
  - intros [= <- <-] _. auto.
  - intros [= <- <-] _. auto.
Qed.

Lemma get_required_timeframes_failure_is_clean_witness :
  ({[ 0%nat := ["1H"; "15"; "2H"] ]} : store) = {[ 0%nat := ["1H"; "15"; "2H"] ]}
  /\ ((Raise IndexError : outcome (option nat)) = Raise ValueError
      \/ (Raise IndexError : outcome (option nat)) = Raise IndexError).
Proof.
  apply (get_required_timeframes_failure_is_clean
           {[ 0%nat := ["1H"; "15"; "2H"] ]} {[ 0%nat := ["1H"; "15"; "2H"] ]}
           0%nat false (Raise IndexError)).
  - reflexivity.
  - discriminate.
Defined.

(** X14.  A code made of digits only passes [int] but has no unit:
    [code[0]] on the empty list of matches raises [IndexError]. *)
Theorem resolver_digits_only_raises_IndexError
  (T A : list string) (tf : string) :
  tf <> "" -> string_forall isdigit tf = true ->
  EQTrendFollowing.double_timeframe T A tf = Raise IndexError
  /\ (forall (t : nat) (result : bool) (h : store),
        h !! t = Some [tf] ->
        EQTrendFollowing.get_required_timeframes t result h = (Raise IndexError, h)).
Proof.
  intros Hne Hd.
  assert (Hstep : forall T' A', EQTrendFollowing.double_timeframe T' A' tf
                                = Raise IndexError).
  { intros T' A'.
    rewrite (double_timeframe_fallback T' A' tf (digits_outside_table tf Hd)).
    rewrite (join_filter_digits tf Hd), (findall_alpha_digits tf Hd).
    unfold py_int. destruct tf as [|c s]; [congruence|].
    destruct (uint_of_string_of_digits (String c s) Hd) as (d & ->). reflexivity. }
  split; [apply Hstep|].
  intros t result h Ht. unfold EQTrendFollowing.get_required_timeframes.
  rewrite (lookup_total_correct _ _ _ Ht). unfold EQTrendFollowing.required.
  simpl. rewrite Hstep. reflexivity.
Qed.

Lemma resolver_digits_only_raises_IndexError_witness :
  EQTrendFollowing.double_timeframe ["1H"; "15"] ["2H"] "15" = Raise IndexError
  /\ (forall (t : nat) (result : bool) (h : store),
        h !! t = Some ["15"] ->
        EQTrendFollowing.get_required_timeframes t result h = (Raise IndexError, h)).
Proof.
  apply (resolver_digits_only_raises_IndexError ["1H"; "15"] ["2H"] "15").
  - discriminate.
  - reflexivity.
Defined.

(** X15.  The resolver queues at most one code per input code, and
    exactly one per code outside the explicit table: on a list without
    table codes the result is as long as the input, whatever is repeated
    or already present. *)
Theorem required_length (T A : list string) :
  EQTrendFollowing.required T = Ok A ->
  (length A <= length T)%nat
  /\ (Forall (fun tf => in_explicit_table tf = false) T -> length A = length T).
Proof.
  intros H. destruct (required_loop_length T T [] A H) as [Hle Heq].
  simpl in Hle, Heq. auto.
Qed.

Lemma required_length_witness :
  (length ["8H"; "8H"; "16H"] <= length ["4H"; "4H"; "8H"])%nat
  /\ (Forall (fun tf => in_explicit_table tf = false) ["4H"; "4H"; "8H"] ->
      length ["8H"; "8H"; "16H"] = length ["4H"; "4H"; "8H"]).
Proof.
  apply (required_length ["4H"; "4H"; "8H"] ["8H"; "8H"; "16H"]). reflexivity.
Defined.

(** X16.  The list returned with [result=True] is the caller's own list
    for the crossover model and a separate list for the trend-following
    model: appending to what the first returned changes the caller's
    list, appending to what the second returned does not. *)
Theorem returned_list_aliasing
  (h h1 h2 : store) (t r1 r2 : nat) (T : list string) (x : string) :
  h !! t = Some T ->
  EMACrossTestingOnly.get_required_timeframes t true h = (Ok (Some r1), h1) ->
  EQTrendFollowing.get_required_timeframes t true h = (Ok (Some r2), h2) ->
  list_append r1 x h1 !! t = Some (T ++ [x])
  /\ list_append r2 x h2 !! t = Some T.
Proof.
  intros Ht [= <- <-] H2.
  destruct (get_required_timeframes_spec_inv h h2 t r2 T Ht H2) as (A & HA & HrA).
  rewrite (get_required_timeframes_spec t true h T A Ht HA) in H2.
  injection H2 as <- <-. split.
  - unfold list_append. rewrite (lookup_total_correct _ _ _ Ht).
    apply lookup_insert_eq.
  - unfold list_append. rewrite lookup_insert_ne.
    + rewrite lookup_insert_ne; [exact Ht|].
      intros E. pose proof (is_fresh (dom h)) as Hf. rewrite E in Hf.
      apply Hf. apply elem_of_dom. eauto.
    + intros E. pose proof (is_fresh (dom h)) as Hf. rewrite E in Hf.
      apply Hf. apply elem_of_dom. eauto.
Qed.

Lemma returned_list_aliasing_witness :
  list_append 0 "1D" {[ 0%nat := ["1H"; "2H"] ]} !! 0%nat
    = Some (["1H"; "2H"] ++ ["1D"])
  /\ list_append 1 "1D" (<[1%nat := ["2H"; "4H"]]> {[ 0%nat := ["1H"; "2H"] ]})
       !! 0%nat = Some ["1H"; "2H"].
Proof.
  apply (returned_list_aliasing {[ 0%nat := ["1H"; "2H"] ]}
           {[ 0%nat := ["1H"; "2H"] ]}
           (<[1%nat := ["2H"; "4H"]]> {[ 0%nat := ["1H"; "2H"] ]})
           0%nat 0%nat 1%nat ["1H"; "2H"] "1D"); reflexivity.
Defined.

(** ** Table entries in mixed lists *)

Section TableOutputs.

Import EQTrendFollowing.

Lemma string_of_uint_digits (d : uint) :
  string_forall isdigit (NilEmpty.string_of_uint d) = true.
Proof. induction d; simpl; auto. Qed.

Lemma py_str_digits (n : N) : string_forall isdigit (py_str n) = true.
Proof. apply string_of_uint_digits. Qed.

(** A numeral followed by letters splits in one way only. *)
Lemma numeral_unit_split (ds ds' u u' : string) :
  string_forall isdigit ds = true -> string_forall isdigit ds' = true ->
  string_forall isalpha u = true -> string_forall isalpha u' = true ->
  ds +:+ u = ds' +:+ u' -> ds = ds'.
Proof.
  revert ds'. induction ds as [|c ds IH]; intros [|c' ds'] Hd Hd' Hu Hu' E;
    auto.
  - change (u = String c' (ds' +:+ u')) in E.
    rewrite E in Hu. simpl in Hu, Hd'. apply andb_prop in Hu as [Hc _].
    apply andb_prop in Hd' as [Hc' _].
    rewrite (isalpha_not_digit c' Hc) in Hc'. discriminate.
  - change (String c (ds +:+ u) = u') in E.
    rewrite <- E in Hu'. simpl in Hu', Hd. apply andb_prop in Hu' as [Hc _].
    apply andb_prop in Hd as [Hc' _].
    rewrite (isalpha_not_digit c Hc) in Hc'. discriminate.
  - change (String c (ds +:+ u) = String c' (ds' +:+ u')) in E.
    injection E as -> E. simpl in Hd, Hd'. apply andb_prop in Hd as [_ Hd].
    apply andb_prop in Hd' as [_ Hd']. f_equal. eauto.
Qed.

Lemma string_forall_of_list (p : ascii -> bool) (l : list ascii) :
  string_forall p (string_of_list_ascii l) = forallb p l.
Proof. induction l as [|c l IH]; simpl; [reflexivity|]. rewrite IH. reflexivity. Qed.

Lemma forallb_rev_true {A : Type} (p : A -> bool) (l : list A) :
  forallb p l = true -> forallb p (rev l) = true.
Proof.
  rewrite !forallb_forall. intros H x Hx. apply H. apply in_rev. exact Hx.
Qed.

(** Every match of [re.findall] is made of letters. *)
Lemma findall_alpha_from_letters_only (s : string) (run : list ascii) (x : string) :
  forallb isalpha run = true ->
  x ∈ findall_alpha_from run s -> string_forall isalpha x = true.
Proof.
  revert run. induction s as [|c s IH]; intros run Hrun Hx; simpl in Hx.
  - destruct run as [|r run']; [apply elem_of_nil in Hx; contradiction|].
    apply list_elem_of_singleton in Hx. subst x.
    rewrite string_forall_of_list. apply forallb_rev_true. exact Hrun.
  - destruct (isalpha c) eqn:Ec.
    + apply (IH (c :: run)); [simpl; rewrite Ec, Hrun; reflexivity|exact Hx].
    + apply elem_of_app in Hx as [Hx|Hx]; [|apply (IH []); auto].
      destruct run as [|r run']; [apply elem_of_nil in Hx; contradiction|].
      apply list_elem_of_singleton in Hx. subst x.
      rewrite string_forall_of_list. apply forallb_rev_true. exact Hrun.
Qed.

(** What the generic rule builds is never an entry of the table: its
    numeral is even. *)
Lemma generic_double_not_table_output (n : N) (u : string) :
  string_forall isalpha u = true ->
  py_str (n * 2) +:+ u ∉ table_outputs.
Proof.
  intros Hu Hin. unfold table_outputs, explicit_table in Hin. simpl in Hin.
  assert (Hodd : forall (ds u' : string) (m : N),
            py_str (n * 2) +:+ u = ds +:+ u' ->
            string_forall isdigit ds = true -> string_forall isalpha u' = true ->
            py_int ds = Ok m -> (n * 2)%N = m).
  { intros ds u' m E Hd Hu' Hm.
    pose proof (numeral_unit_split _ _ _ _ (py_str_digits (n * 2)) Hd Hu Hu' E) as Hds.
    rewrite <- Hds, py_int_py_str in Hm. congruence. }
  repeat (apply elem_of_cons in Hin as [Hin|Hin];
          [first [ pose proof (Hodd "3" "Min" 3%N Hin eq_refl eq_refl eq_refl)
                 | pose proof (Hodd "5" "Min" 5%N Hin eq_refl eq_refl eq_refl)
                 | pose proof (Hodd "15" "Min" 15%N Hin eq_refl eq_refl eq_refl)
                 | pose proof (Hodd "1" "H" 1%N Hin eq_refl eq_refl eq_refl)
                 | pose proof (Hodd "1" "D" 1%N Hin eq_refl eq_refl eq_refl)
                 | pose proof (Hodd "7" "D" 7%N Hin eq_refl eq_refl eq_refl) ];
           lia|]).
  apply elem_of_nil in Hin. contradiction.
Qed.

End TableOutputs.

Section TableInvariant.

Import EQTrendFollowing.

Variable T : list string.

Lemma table_entries_new_snoc (A : list string) (c : string) :
  table_entries_new T A ->
  (c ∈ table_outputs -> (c ∉ A) /\ (c ∉ T)) ->
  table_entries_new T (A ++ [c]).
Proof.
  intros [Hnd Hdisj] Hc. split.
  - rewrite filter_app. destruct (decide (c ∈ table_outputs)) as [Hin|Hout].
    + rewrite (filter_cons_True _ c [] Hin), filter_nil.
      apply NoDup_app. repeat split; auto.
      * intros x Hx Hx'. apply list_elem_of_singleton in Hx'. subst x.
        apply list_elem_of_filter in Hx as [_ Hx]. apply (proj1 (Hc Hin)). exact Hx.
      * apply NoDup_singleton.
    + rewrite (filter_cons_False _ c [] Hout), filter_nil, app_nil_r. exact Hnd.
  - intros x Hx Hout. apply elem_of_app in Hx as [Hx|Hx]; [auto|].
    apply list_elem_of_singleton in Hx. subst x. apply (proj2 (Hc Hout)).
Qed.

Lemma double_timeframe_table_entries_new (A A' : list string) (tf : string) :
  double_timeframe T A tf = Ok A' ->
  table_entries_new T A -> table_entries_new T A'.
Proof.
  intros Hstep HA. destruct (in_explicit_table tf) eqn:E.
  - destruct (in_explicit_table_true tf E) as (c & Hc).
    rewrite (double_timeframe_table T A tf c Hc) in Hstep.
    injection Hstep as <-. unfold add_if_new.
    destruct (not_in c T) eqn:ET; simpl; [|exact HA].
    destruct (not_in c A) eqn:EA; [|exact HA].
    apply not_in_true in ET. apply not_in_true in EA.
    apply table_entries_new_snoc; auto.
  - rewrite (double_timeframe_fallback T A tf E) in Hstep.
    apply bind_Ok_inv in Hstep as (n & _ & Hstep).
    apply bind_Ok_inv in Hstep as (code0 & Hcode & [= <-]).
    apply table_entries_new_snoc; [exact HA|].
    intros Hin. exfalso.
    apply (generic_double_not_table_output n code0); [|exact Hin].
    destruct (py_index_outcome (findall_alpha tf) 0) as [(x & Hx & Hmem)|Hx];
      rewrite Hx in Hcode; [|discriminate].
    injection Hcode as <-.
    apply (findall_alpha_from_letters_only tf [] x); [reflexivity|exact Hmem].
Qed.

Lemma required_loop_table_entries_new (l A A' : list string) :
  for_each (double_timeframe T) l A = Ok A' ->
  table_entries_new T A -> table_entries_new T A'.
Proof.
  revert A. induction l as [|tf l IH]; intros A; cbn [for_each].
  - intros [= <-]. auto.
  - intros H HA. apply bind_Ok_inv in H as (A1 & Hstep & Hrest).
    eauto using double_timeframe_table_entries_new.
Qed.

End TableInvariant.

(** X17.  Whatever codes the list [T] holds, the entries of the explicit
    table are deduplicated: in the list the resolver builds, each of
    3Min, 5Min, 15Min, 1H, 1D and 7D occurs at most once and only if it is
    not in [T].  Duplicates and codes already in [T] can only come from
    the generic doubling. *)
Theorem required_table_entries_are_new (T A : list string) :
  EQTrendFollowing.required T = Ok A ->
  NoDup (filter (fun c => c ∈ table_outputs) A)
  /\ (forall x, x ∈ A -> x ∈ table_outputs -> x ∉ T).
Proof.
  intros H. apply (required_loop_table_entries_new T T [] A H).
  split; [rewrite filter_nil; apply NoDup_nil_2|].
  intros x Hx. apply elem_of_nil in Hx. contradiction.
Qed.

Lemma required_table_entries_are_new_witness :
  NoDup (filter (fun c => c ∈ table_outputs) ["3Min"; "1D"; "8H"; "8H"])
  /\ (forall x, x ∈ ["3Min"; "1D"; "8H"; "8H"] -> x ∈ table_outputs ->
      x ∉ ["1Min"; "12H"; "4H"; "16H"; "4H"; "1Min"]).
Proof.
  apply (required_table_entries_are_new
           ["1Min"; "12H"; "4H"; "16H"; "4H"; "1Min"]
           ["3Min"; "1D"; "8H"; "8H"]).
  reflexivity.
Defined.
